(** * Interventions of the epidemic simulator (covasim/interventions.py)

    A shallow embedding of the intervention classes [ChangeBeta], [TestNum]
    and [TestProp] and of the base class [Intervention], with the properties
    the specification states about them.

    Conventions of the embedding.
    - Python floats (beta, the multipliers, the probabilities and the testing
      weights) are exact rationals [Q]; equalities between computed floats are
      therefore stated up to [==] where arithmetic is re-associated.  The
      normalized weights are floats [fl], which also hold what numpy leaves
      after a division by zero: [nan], [inf] and [-inf].
    - Daily counters hold whole numbers and are integers [Z].
    - A timestep is the loop index of the simulation, a [nat].
    - Python dictionaries with string keys are [gmap string _], the set of
      scheduled tests is a [gset nat], arrays are lists read with [!!].
    - An exception is a value [Err e] of the [result] type. *)

From Stdlib Require Import QArith Lqa.
From stdpp Require Import base option list gmap sets strings pretty.

Local Open Scope Z_scope.
Local Open Scope nat_scope.
#[local] Set Warnings "-clear-no-such-hyp".

(** ** Exceptions *)

Inductive error : Type :=
  | ValueError (msg : string)
  | KeyError (key : string)
  | IndexError
  | NotImplementedError.

Inductive result (A : Type) : Type :=
  | Ok (a : A)
  | Err (e : error).
Arguments Ok {A} a.
Arguments Err {A} e.

Definition rbind {A B : Type} (m : result A) (k : A → result B) : result B :=
  match m with
  | Ok a => k a
  | Err e => Err e
  end.

#[global] Instance result_ret : MRet result := fun A a => Ok a.
#[global] Instance result_bind : MBind result := fun A B k m => rbind m k.

(** ** Values held in instance attributes *)

(** A daily counter series, [cv.Result]: a label and one slot per day. *)
Record Result : Type := mkResult {
  name : string;
  values : list Z;
}.

(** Modelled from the spec: [cv.Result(label, npts=npts)] is a fixed-length
    series of [npts] slots, all zero at construction. *)
Definition new_Result (label : string) (npts : nat) : Result :=
  {| name := label; values := replicate npts 0%Z |}.

(** An entry of [daily_tests]: a whole number of tests, or a float that is
    not finite ([inf], [nan]). *)
Inductive budget : Type :=
  | Tests (n : Z)
  | NonFinite.

(** The Python values that occur as attributes of the interventions. *)
Inductive pyval : Type :=
  | PNone
  | PFloat (q : Q)
  | PStr (s : string)
  | PList (l : list budget)
  | PIntArray (a : list Z)
  | PFloatArray (a : list Q)
  | PSet (s : gset nat)
  | PResults (rs : gmap string Result).

(** What the standard JSON encoder accepts: None, numbers, strings, lists of
    numbers and the empty dictionary.  Sets, numpy arrays and instances of
    classes (the [Result] objects of a dictionary of results) are refused. *)
Definition json_serializable (v : pyval) : bool :=
  match v with
  | PNone | PFloat _ | PStr _ | PList _ => true
  | PResults rs => bool_decide (rs = ∅)
  | PIntArray _ | PFloatArray _ | PSet _ => false
  end.

(** ** The base class *)

(** [__dict__] and [__class__.__name__] of an instance. *)
Class Intervention (A : Type) : Type := {
  class_name : string;
  obj_dict : A → gmap string pyval;
}.

(** [Intervention.to_json]: the copied attribute dictionary with the class
    name stored under ['InterventionType']. *)
Definition to_json {A : Type} `{Intervention A} (self : A) : gmap string pyval :=
  let d := obj_dict self in
  <["InterventionType" := PStr class_name]> d.

(** [Intervention.apply] of the base class. *)
Definition base_apply {S : Type} (sim : S) (t : nat) : result S :=
  Err NotImplementedError.

(** [Intervention.finalize] of the base class. *)
Definition base_finalize {S : Type} (sim : S) : result S := Ok sim.

(** ** The collaborators of the interventions *)

(** People, their [test] method and the random source are defined outside
    interventions.py; the interventions are modelled over any choice of them.
    [bt p] is one Bernoulli trial, [uniform] one draw from [0,1). *)
Class World : Type := {
  Person : Type;
  RNG : Type;
  symptomatic : Person → bool;
  known_contact : Person → bool;
  diagnosed : Person → bool;
  contact_inds : Person → list nat;
  test : Person → nat → Q → RNG → Person * RNG;
  bt : Q → RNG → bool * RNG;
  uniform : RNG → Q * RNG;
}.

(** The part of [Sim] the interventions read and write: [sim['beta']],
    [sim.people] (in iteration order) and [sim.results]. *)
Record Sim `{World} : Type := mkSim {
  beta : Q;
  people : list Person;
  sim_results : gmap string Result;
}.

Definition set_beta `{World} (sim : Sim) (b : Q) : Sim :=
  {| beta := b; people := people sim; sim_results := sim_results sim |}.

Definition set_people `{World} (sim : Sim) (ps : list Person) : Sim :=
  {| beta := beta sim; people := ps; sim_results := sim_results sim |}.

(** [sim.results.update(res)]: the entries of [res] win. *)
Definition update_results `{World} (sim : Sim) (res : gmap string Result) : Sim :=
  {| beta := beta sim; people := people sim; sim_results := res ∪ sim_results sim |}.

(** [sim.get_person(ind)] *)
Definition get_person `{World} (sim : Sim) (ind : nat) : result Person :=
  match people sim !! ind with
  | Some p => Ok p
  | None => Err IndexError
  end.

(** What the intervention did during one call of [apply], in order: the calls
    of [person.test], the diagnoses counted and the indices added to the new
    set of scheduled tests. *)
Inductive event : Type :=
  | Tested (i : nat) (t : nat) (sens : Q)
  | Counted (i : nat)
  | Scheduled (idx : nat).

Definition tested_inds (log : list event) : list nat :=
  omap (fun e => match e with Tested i _ _ => Some i | _ => None end) log.
Definition counted_inds (log : list event) : list nat :=
  omap (fun e => match e with Counted i => Some i | _ => None end) log.
Definition scheduled_inds (log : list event) : list nat :=
  omap (fun e => match e with Scheduled i => Some i | _ => None end) log.

(** ** Counter series *)

(** [results[key][t] += 1] *)
Definition incr (key : string) (t : nat) (res : gmap string Result)
  : result (gmap string Result) :=
  match res !! key with
  | None => Err (KeyError key)
  | Some r =>
      match values r !! t with
      | None => Err IndexError
      | Some v => Ok (<[key := {| name := name r; values := <[t := (v + 1)%Z]> (values r) |}]> res)
      end
  end.

(** [pl.cumsum] *)
Fixpoint cumsum_from (acc : Z) (l : list Z) : list Z :=
  match l with
  | [] => []
  | x :: l' => (acc + x)%Z :: cumsum_from (acc + x)%Z l'
  end.
Definition cumsum (l : list Z) : list Z := cumsum_from 0%Z l.

(** [results[dst].values = pl.cumsum(results[src].values)] *)
Definition set_cumulative (dst src : string) (res : gmap string Result)
  : result (gmap string Result) :=
  match res !! src, res !! dst with
  | None, _ => Err (KeyError src)
  | _, None => Err (KeyError dst)
  | Some rs, Some rd =>
      Ok (<[dst := {| name := name rd; values := cumsum (values rs) |}]> res)
  end.

(** Python truth value of a float, and [pl.isfinite]. *)
Definition truthy (q : Q) : bool := negb (Qeq_bool q 0).
Definition Qlt_bool (a b : Q) : bool := negb (Qle_bool b a).

Definition budget_truthy (b : budget) : bool :=
  match b with Tests n => negb (n =? 0)%Z | NonFinite => true end.
Definition isfinite (b : budget) : bool :=
  match b with Tests _ => true | NonFinite => false end.

(** ** ChangeBeta *)

(** A constructor argument that is a scalar or a sequence. *)
Inductive arg (A : Type) : Type :=
  | Scalar (a : A)
  | Seq (l : list A).
Arguments Scalar {A} a.
Arguments Seq {A} l.

(** [sc.promotetoarray]: a scalar becomes an array of one element. *)
Definition promotetoarray {A : Type} (x : arg A) : list A :=
  match x with
  | Scalar a => [a]
  | Seq l => l
  end.

(** [sc.findinds(arr, v)]: the indices at which [arr] holds [v], ascending. *)
Fixpoint findinds_from (i : nat) (arr : list Z) (v : Z) : list nat :=
  match arr with
  | [] => []
  | d :: arr' =>
      if (d =? v)%Z then i :: findinds_from (S i) arr' v
      else findinds_from (S i) arr' v
  end.
Definition findinds (arr : list Z) (v : Z) : list nat := findinds_from 0 arr v.

Module ChangeBeta.

Record t : Type := mk {
  results : gmap string Result;
  days : list Z;
  changes : list Q;
  orig_beta : option Q;
}.

Definition errormsg (ndays nchanges : nat) : string :=
  "Number of days supplied (" +:+ pretty ndays
    +:+ ") does not match number of changes in beta (" +:+ pretty nchanges +:+ ")".

(** [ChangeBeta.__init__] *)
Definition init (days_arg : arg Z) (changes_arg : arg Q) : result t :=
  let results := (∅ : gmap string Result) in
  let days := promotetoarray days_arg in
  let changes := promotetoarray changes_arg in
  if negb (length days =? length changes) then
    Err (ValueError (errormsg (length days) (length changes)))
  else
    Ok {| results := results; days := days; changes := changes; orig_beta := None |}.

(** The loop [for ind in inds: new_beta = new_beta * self.changes[ind]]. *)
Fixpoint multiply (changes : list Q) (inds : list nat) (new_beta : Q) : result Q :=
  match inds with
  | [] => Ok new_beta
  | ind :: inds' =>
      match changes !! ind with
      | None => Err IndexError
      | Some c => multiply changes inds' (new_beta * c)%Q
      end
  end.

Section apply.
Context `{World}.

(** [ChangeBeta.apply] *)
Definition apply (self : t) (sim : Sim) (t : nat) : result (ChangeBeta.t * Sim) :=
  let orig :=
    match orig_beta self with
    | None => beta sim
    | Some b => b
    end in
  let self := {| results := results self; days := days self;
                 changes := changes self; orig_beta := Some orig |} in
  let inds := findinds (days self) (Z.of_nat t) in
  if negb (length inds =? 0) then
    new_beta ← multiply (changes self) inds orig;
    Ok (self, set_beta sim new_beta)
  else
    Ok (self, sim).

(** The simulation loop as this intervention sees it: [apply] at each of
    the timesteps in turn; [rest] is what the rest of the simulation does to
    [sim] between this call and the next. *)
Fixpoint run (self : t) (sim : Sim) (steps : list (nat * (Sim → Sim)))
  : result (ChangeBeta.t * Sim) :=
  match steps with
  | [] => Ok (self, sim)
  | (t, rest) :: steps' =>
      '(self', sim') ← apply self sim t;
      run self' (rest sim') steps'
  end.
End apply.

(** The factors the schedule gives for day [t], as the specification words
    it: [changes[i]] for the [i] with [days[i] == t]. *)
Definition scheduled (days : list Z) (changes : list Q) (t : nat) : list Q :=
  (filter (fun dc => dc.1 = Z.of_nat t) (zip days changes)).*2.

Definition product (l : list Q) : Q := foldr Qmult 1%Q l.

#[global] Instance intervention : Intervention t := {|
  class_name := "ChangeBeta";
  obj_dict self :=
    <["orig_beta" := match orig_beta self with None => PNone | Some b => PFloat b end]>
    (<["changes" := PFloatArray (changes self)]>
    (<["days" := PIntArray (days self)]>
    (<["results" := PResults (results self)]> ∅)));
|}.

End ChangeBeta.

(** ** Floats that are not numbers *)

(** A float as numpy computes it in the normalization of the weights: a
    number, or what a division by zero leaves: [nan], [inf] or [-inf]. *)
Inductive fl : Type :=
  | Num (q : Q)
  | NaN
  | Inf
  | NegInf.

(** [w / 0.0] in numpy: no exception, [nan] for a zero [w], else the infinity
    of the sign of [w]. *)
Definition fl_div0 (w : Q) : fl :=
  if Qeq_bool w 0 then NaN else if Qlt_bool 0 w then Inf else NegInf.

(** [w / s] *)
Definition fl_div (w s : Q) : fl :=
  if Qeq_bool s 0 then fl_div0 w else Num (w / s).

Definition fl_neg (a : fl) : fl :=
  match a with
  | Num x => Num (- x)
  | NaN => NaN
  | Inf => NegInf
  | NegInf => Inf
  end.

Definition fl_add (a b : fl) : fl :=
  match a, b with
  | Num x, Num y => Num (x + y)
  | NaN, _ | _, NaN => NaN
  | Inf, NegInf | NegInf, Inf => NaN
  | Inf, _ | _, Inf => Inf
  | NegInf, _ | _, NegInf => NegInf
  end.

Definition fl_sub (a b : fl) : fl := fl_add a (fl_neg b).

(** [u * a] for a number [u] *)
Definition fl_scale (u : Q) (a : fl) : fl :=
  match a with
  | Num x => Num (u * x)
  | NaN => NaN
  | Inf => fl_div0 u
  | NegInf => fl_div0 (- u)
  end.

(** [a < b]; every comparison with [nan] is false. *)
Definition fl_lt (a b : fl) : bool :=
  match a, b with
  | Num x, Num y => Qlt_bool x y
  | NaN, _ | _, NaN => false
  | NegInf, NegInf | Inf, _ | _, NegInf => false
  | NegInf, _ | _, Inf => true
  end.

(** ** Weighted choice of people *)

(** An entry takes part in the draw unless it compares as [<= 0]: the positive
    numbers and [inf] do, and so does [nan]. *)
Definition eligible (p : fl) : bool :=
  match p with
  | Num q => Qlt_bool 0 q
  | NaN | Inf => true
  | NegInf => false
  end.

(** The indices that take part in the draw, each with its entry. *)
Fixpoint support_from (i : nat) (probs : list fl) : list (nat * fl) :=
  match probs with
  | [] => []
  | p :: probs' =>
      if eligible p then (i, p) :: support_from (S i) probs'
      else support_from (S i) probs'
  end.

Definition total (cands : list (nat * fl)) : fl :=
  foldr (fun c acc => fl_add c.2 acc) (Num 0) cands.

(** The candidate whose share of the cumulated entries holds [x]; the last
    one when [x] lies beyond them or is not a number. *)
Fixpoint pick (x : fl) (c : nat * fl) (cs : list (nat * fl)) : nat :=
  match cs with
  | [] => c.1
  | c' :: cs' => if fl_lt x c.2 then c.1 else pick (fl_sub x c.2) c' cs'
  end.

Fixpoint draw `{World} (k : nat) (cands : list (nat * fl)) (rng : RNG) : list nat * RNG :=
  match k, cands with
  | 0, _ => ([], rng)
  | _, [] => ([], rng)
  | S k', c :: cs =>
      let '(u, rng1) := uniform rng in
      let i := pick (fl_scale u (total cands)) c cs in
      let '(rest, rng2) := draw k' (filter (fun c' => c'.1 ≠ i) cands) rng1 in
      (i :: rest, rng2)
  end.

(** Modelled from the spec: [cv.choose_people_weighted(probs, n)] is defined
    in covasim/utils.py, which is not among the sources.  The specification
    says of it: draw [n] distinct person-indices by weighted sampling without
    replacement from the distribution [probs]; the number drawn is
    [min(n, population size)] when the weights permit; an index of weight
    zero is never drawn, except in the degenerate case of the normalization
    (a zero sum), which the specification leaves open and in which diagnosed
    people can be drawn again.  Each draw takes one uniform number and picks
    among the indices not drawn yet whose entry takes part in the draw, in
    proportion to the entries; drawing stops when no index is left. *)
Definition choose_people_weighted `{World} (probs : list fl) (n : Z) (rng : RNG)
  : list nat * RNG :=
  draw (Z.to_nat n) (support_from 0 probs) rng.

(** ** TestNum *)

Module TestNum.

Record t : Type := mk {
  results : gmap string Result;
  daily_tests : list budget;
  sympt_test : Q;
  trace_test : Q;
  sensitivity : Q;
}.

Definition default_sympt_test : Q := 100.
Definition default_trace_test : Q := 1.
Definition default_sensitivity : Q := 1.

(** [TestNum.__init__] *)
Definition init (npts : nat) (daily_tests : list budget)
    (sympt_test trace_test sensitivity : Q) : t :=
  let results := (∅ : gmap string Result) in
  let results := <["n_diagnoses" := new_Result "Number diagnosed" npts]> results in
  let results := <["cum_diagnoses" := new_Result "Cumulative number diagnosed" npts]> results in
  {| results := results; daily_tests := daily_tests; sympt_test := sympt_test;
     trace_test := trace_test; sensitivity := sensitivity |}.

Definition set_results (self : t) (res : gmap string Result) : t :=
  {| results := res; daily_tests := daily_tests self; sympt_test := sympt_test self;
     trace_test := trace_test self; sensitivity := sensitivity self |}.

Section apply.
Context `{World}.

(** The entry of [test_probs] computed for one person. *)
Definition weight (self : t) (person : Person) : Q :=
  let w := 1%Q in
  let w := if symptomatic person then (w * sympt_test self)%Q else w in
  let w := if known_contact person then (w * trace_test self)%Q else w in
  if diagnosed person then 0%Q else w.

Definition test_probs (self : t) (sim : Sim) : list Q :=
  weight self <$> people sim.

Definition Qsum (l : list Q) : Q := foldr Qplus 0%Q l.

(** [test_probs /= test_probs.sum()], an entry by entry division that does
    not raise: with a zero sum the entries become [nan], [inf] or [-inf]. *)
Definition normalize (probs : list Q) : list fl :=
  let s := Qsum probs in
  (fun w => fl_div w s) <$> probs.

(** The loop [for test_ind in test_inds]. *)
Fixpoint test_loop (self : t) (t : nat) (test_inds : list nat)
    (res : gmap string Result) (sim : Sim) (rng : RNG) (log : list event)
  : result (gmap string Result * Sim * RNG * list event) :=
  match test_inds with
  | [] => Ok (res, sim, rng, log)
  | test_ind :: test_inds' =>
      person ← get_person sim test_ind;
      let '(person, rng) := test person t (sensitivity self) rng in
      let sim := set_people sim (<[test_ind := person]> (people sim)) in
      let log := log ++ [Tested test_ind t (sensitivity self)] in
      if diagnosed person then
        res ← incr "n_diagnoses" t res;
        test_loop self t test_inds' res sim rng (log ++ [Counted test_ind])
      else
        test_loop self t test_inds' res sim rng log
  end.

(** [TestNum.apply] *)
Definition apply (self : t) (sim : Sim) (t : nat) (rng : RNG)
  : result (TestNum.t * Sim * RNG * list event) :=
  match daily_tests self !! t with
  | None => Ok (self, sim, rng, [])
  | Some n_tests =>
      if negb (budget_truthy n_tests && isfinite n_tests) then Ok (self, sim, rng, [])
      else
        match n_tests with
        | NonFinite => Ok (self, sim, rng, [])
        | Tests n =>
            let probs := normalize (test_probs self sim) in
            let '(test_inds, rng) := choose_people_weighted probs n rng in
            '(res, sim, rng, log) ← test_loop self t test_inds (results self) sim rng [];
            Ok (set_results self res, sim, rng, log)
        end
  end.

(** [TestNum.finalize] *)
Definition finalize (self : t) (sim : Sim) : result (TestNum.t * Sim) :=
  res ← set_cumulative "cum_diagnoses" "n_diagnoses" (results self);
  Ok (set_results self res, update_results sim res).
End apply.

#[global] Instance intervention : Intervention t := {|
  class_name := "TestNum";
  obj_dict self :=
    <["sensitivity" := PFloat (sensitivity self)]>
    (<["trace_test" := PFloat (trace_test self)]>
    (<["sympt_test" := PFloat (sympt_test self)]>
    (<["daily_tests" := PList (daily_tests self)]>
    (<["results" := PResults (results self)]> ∅))));
|}.

End TestNum.

(** ** TestProp *)

Module TestProp.

Record t : Type := mk {
  results : gmap string Result;
  symptomatic_prob : Q;
  asymptomatic_prob : Q;
  trace_prob : Q;
  test_sensitivity : Q;
  scheduled_tests : gset nat;
}.

Definition default_symptomatic_prob : Q := 9 # 10.
Definition default_asymptomatic_prob : Q := 1 # 100.
Definition default_trace_prob : Q := 1.
Definition default_test_sensitivity : Q := 1.

(** [TestProp.__init__] *)
Definition init (npts : nat)
    (symptomatic_prob asymptomatic_prob trace_prob test_sensitivity : Q) : t :=
  let results := (∅ : gmap string Result) in
  let results := <["n_tested" := new_Result "Number tested" npts]> results in
  let results := <["n_diagnoses" := new_Result "Number diagnosed" npts]> results in
  let results := <["cum_tested" := new_Result "Cumulative number tested" npts]> results in
  let results := <["cum_diagnoses" := new_Result "Cumulative number diagnosed" npts]> results in
  {| results := results; symptomatic_prob := symptomatic_prob;
     asymptomatic_prob := asymptomatic_prob; trace_prob := trace_prob;
     test_sensitivity := test_sensitivity; scheduled_tests := ∅ |}.

Definition set_results (self : t) (res : gmap string Result) : t :=
  {| results := res; symptomatic_prob := symptomatic_prob self;
     asymptomatic_prob := asymptomatic_prob self; trace_prob := trace_prob self;
     test_sensitivity := test_sensitivity self; scheduled_tests := scheduled_tests self |}.

Definition set_scheduled_tests (self : t) (s : gset nat) : t :=
  {| results := results self; symptomatic_prob := symptomatic_prob self;
     asymptomatic_prob := asymptomatic_prob self; trace_prob := trace_prob self;
     test_sensitivity := test_sensitivity self; scheduled_tests := s |}.

Section apply.
Context `{World}.

(** The condition of the [if] in the loop over the people; [and] and [or]
    draw a Bernoulli trial only when they reach it. *)
Definition selected (self : t) (i : nat) (person : Person) (rng : RNG) : bool * RNG :=
  if decide (i ∈ scheduled_tests self) then (true, rng)
  else if symptomatic person then bt (symptomatic_prob self) rng
  else bt (asymptomatic_prob self) rng.

(** The loop [for idx in person.contact_inds]. *)
Fixpoint trace (self : t) (person : Person) (idxs : list nat)
    (new_scheduled_tests : gset nat) (rng : RNG) (log : list event)
  : gset nat * RNG * list event :=
  match idxs with
  | [] => (new_scheduled_tests, rng, log)
  | idx :: idxs' =>
      let '(hit, rng) :=
        if diagnosed person && truthy (trace_prob self)
        then bt (trace_prob self) rng else (false, rng) in
      if hit then
        trace self person idxs' ({[idx]} ∪ new_scheduled_tests) rng (log ++ [Scheduled idx])
      else
        trace self person idxs' new_scheduled_tests rng log
  end.

(** What the loop carries from one person to the next. *)
Record loop_state : Type := mkLoop {
  l_results : gmap string Result;
  l_new_scheduled_tests : gset nat;
  l_rng : RNG;
  l_log : list event;
}.

(** The body of the loop over the people, for the person at index [i]. *)
Definition visit (self : t) (t : nat) (i : nat) (person : Person) (st : loop_state)
  : result (Person * loop_state) :=
  let '(sel, rng) := selected self i person (l_rng st) in
  if sel then
    res ← incr "n_tested" t (l_results st);
    let '(person, rng) := test person t (test_sensitivity self) rng in
    let log := l_log st ++ [Tested i t (test_sensitivity self)] in
    if diagnosed person then
      res ← incr "n_diagnoses" t res;
      let '(new, rng, log) :=
        trace self person (contact_inds person) (l_new_scheduled_tests st) rng
              (log ++ [Counted i]) in
      Ok (person, mkLoop res new rng log)
    else
      Ok (person, mkLoop res (l_new_scheduled_tests st) rng log)
  else
    Ok (person, mkLoop (l_results st) (l_new_scheduled_tests st) rng (l_log st)).

(** [for i, person in enumerate(sim.people.values())], from index [i]. *)
Fixpoint loop (self : t) (t : nat) (i : nat) (persons : list Person) (st : loop_state)
  : result (list Person * loop_state) :=
  match persons with
  | [] => Ok ([], st)
  | person :: persons' =>
      '(person, st) ← visit self t i person st;
      '(persons', st) ← loop self t (S i) persons' st;
      Ok (person :: persons', st)
  end.

(** [TestProp.apply] *)
Definition apply (self : t) (sim : Sim) (t : nat) (rng : RNG)
  : result (TestProp.t * Sim * RNG * list event) :=
  let new_scheduled_tests := (∅ : gset nat) in
  '(persons, st) ← loop self t 0 (people sim) (mkLoop (results self) new_scheduled_tests rng []);
  let self := set_results self (l_results st) in
  let self := set_scheduled_tests self (l_new_scheduled_tests st) in
  Ok (self, set_people sim persons, l_rng st, l_log st).

(** [TestProp.finalize] *)
Definition finalize (self : t) (sim : Sim) : result (TestProp.t * Sim) :=
  res ← set_cumulative "cum_tested" "n_tested" (results self);
  res ← set_cumulative "cum_diagnoses" "n_diagnoses" res;
  Ok (set_results self res, update_results sim res).
End apply.

#[global] Instance intervention : Intervention t := {|
  class_name := "TestProp";
  obj_dict self :=
    <["scheduled_tests" := PSet (scheduled_tests self)]>
    (<["test_sensitivity" := PFloat (test_sensitivity self)]>
    (<["trace_prob" := PFloat (trace_prob self)]>
    (<["asymptomatic_prob" := PFloat (asymptomatic_prob self)]>
    (<["symptomatic_prob" := PFloat (symptomatic_prob self)]>
    (<["results" := PResults (results self)]> ∅)))));
|}.

End TestProp.

(** ** A small world to run the interventions in *)

(** A person who is diagnosed by a test when infectious and the trial on the
    sensitivity succeeds; the random source is the list of the uniform numbers
    it will hand out (0 once the list is used up). *)
Module Toy.

Record person : Type := mkPerson {
  p_symptomatic : bool;
  p_known_contact : bool;
  p_diagnosed : bool;
  p_infectious : bool;
  p_contact_inds : list nat;
}.

Definition toy_uniform (rng : list Q) : Q * list Q :=
  match rng with
  | [] => (0%Q, [])
  | u :: rng' => (u, rng')
  end.

Definition toy_bt (prob : Q) (rng : list Q) : bool * list Q :=
  let '(u, rng') := toy_uniform rng in (Qlt_bool u prob, rng').

Definition toy_test (p : person) (t : nat) (sens : Q) (rng : list Q) : person * list Q :=
  if p_infectious p then
    let '(hit, rng') := toy_bt sens rng in
    if hit then
      (mkPerson (p_symptomatic p) (p_known_contact p) true (p_infectious p)
                (p_contact_inds p), rng')
    else (p, rng')
  else (p, rng).

#[export] Instance world : World := {|
  Person := person;
  RNG := list Q;
  symptomatic := p_symptomatic;
  known_contact := p_known_contact;
  diagnosed := p_diagnosed;
  contact_inds := p_contact_inds;
  test := toy_test;
  bt := toy_bt;
  uniform := toy_uniform;
|}.

Definition healthy : person := mkPerson false false false false [].
Definition sick (contacts : list nat) : person := mkPerson true false false true contacts.
Definition carrier (contacts : list nat) : person := mkPerson false false false true contacts.
Definition known (contacts : list nat) : person := mkPerson true false true true contacts.

Definition sim_of (b : Q) (ps : list person) : Sim := mkSim world b ps ∅.

(** A tracing policy over three days that tests the symptomatic with
    probability 0.9 and nobody else at random, and two populations of two:
    a sick person whose contact is healthy, and a sick person and a
    symptom-free carrier who are each other's contact. *)
Definition policy : TestProp.t := TestProp.init 3 (9 # 10) 0 1 1.
Definition sick_and_healthy : Sim := sim_of 1 [sick [1]; healthy].
Definition sick_and_carrier : Sim := sim_of 1 [sick [1]; carrier [0]].

(** Three days; on days 1 and 2 the first uniform number drawn is 0.95. *)
Definition three_days : list (nat * list Q) :=
  [(0, []); (1, [(95 # 100)%Q]); (2, [(95 # 100)%Q])].

End Toy.

(** ** Vocabulary of the properties *)

(** [res] holds under [key] a series of [npts] slots. *)
Definition series (npts : nat) (res : gmap string Result) (key : string) : Prop :=
  ∃ r, res !! key = Some r ∧ length (values r) = npts.

(** [res[key][t]], 0 when there is no such slot. *)
Definition value_at (res : gmap string Result) (key : string) (t : nat) : Z :=
  default 0%Z (r ← res !! key; values r !! t).

(** [sum(l[0..t])], both ends included. *)
Definition sum_upto (l : list Z) (t : nat) : Z := foldr Z.add 0%Z (take (S t) l).

(** The loop of [TestProp.apply] went from [st] to [st'] while doing [ext]:
    the log grew by [ext], the series kept their lengths, the two counters of
    day [t] grew by the number of tests and of counted diagnoses in [ext], and
    the new set received the indices scheduled in [ext]. *)
Definition extends `{World} (t npts : nat) (st st' : TestProp.loop_state)
    (ext : list event) : Prop :=
  TestProp.l_log st' = TestProp.l_log st ++ ext
  ∧ (∀ key, series npts (TestProp.l_results st) key → series npts (TestProp.l_results st') key)
  ∧ value_at (TestProp.l_results st') "n_tested" t
    = (value_at (TestProp.l_results st) "n_tested" t + Z.of_nat (length (tested_inds ext)))%Z
  ∧ value_at (TestProp.l_results st') "n_diagnoses" t
    = (value_at (TestProp.l_results st) "n_diagnoses" t + Z.of_nat (length (counted_inds ext)))%Z
  ∧ TestProp.l_new_scheduled_tests st'
    = list_to_set (scheduled_inds ext) ∪ TestProp.l_new_scheduled_tests st.

(** What the body of the loop of [TestProp.apply] does with the person [p] at
    index [i], reached with the random source [rng]: [p'] is the person
    afterwards and [ext] what was done.  A selected person is tested, is
    counted when diagnosed after the test, and is then traced: when
    [trace_prob] is not zero and its trials succeed, every contact is
    scheduled.  A person who is not selected is left alone. *)
Definition visited `{World} (self : TestProp.t) (t i : nat) (p : Person) (rng : RNG)
    (p' : Person) (ext : list event) : Prop :=
  ((TestProp.selected self i p rng).1 = true →
     p' = (test p t (TestProp.test_sensitivity self) (TestProp.selected self i p rng).2).1
     ∧ Tested i t (TestProp.test_sensitivity self) ∈ ext
     ∧ (diagnosed p' = true →
          Counted i ∈ ext
          ∧ (truthy (TestProp.trace_prob self) = true →
             (∀ r, (bt (TestProp.trace_prob self) r).1 = true) →
             ∀ idx, idx ∈ contact_inds p' → idx ∈ scheduled_inds ext)))
  ∧ ((TestProp.selected self i p rng).1 = false → p' = p ∧ ext = []).

(** The simulation loop restricted to one [TestProp] instance: [apply] on the
    given days in turn, each day with the random source it finds; the logs of
    the days are returned with the final state. *)
Fixpoint run_TestProp `{World} (self : TestProp.t) (sim : Sim) (days : list (nat * RNG))
  : result (TestProp.t * Sim * list (list event)) :=
  match days with
  | [] => Ok (self, sim, [])
  | (t, rng) :: days' =>
      '(self, sim, _, log) ← TestProp.apply self sim t rng;
      '(self, sim, logs) ← run_TestProp self sim days';
      Ok (self, sim, log :: logs)
  end.

(** The sum of all slots of a series, 0 when it is missing. *)
Definition series_total (res : gmap string Result) (key : string) : Z :=
  match res !! key with
  | Some r => foldr Z.add 0%Z (values r)
  | None => 0%Z
  end.

(** The number of people who are diagnosed. *)
Definition n_diagnosed `{World} (sim : Sim) : nat :=
  length (filter (fun p => diagnosed p = true) (people sim)).



(** The names of the parameters of the three constructors. *)
Definition ChangeBeta_parameters : list string := ["days"; "changes"].
Definition TestNum_parameters : list string :=
  ["npts"; "daily_tests"; "sympt_test"; "trace_test"; "sensitivity"].
Definition TestProp_parameters : list string :=
  ["npts"; "symptomatic_prob"; "asymptomatic_prob"; "trace_prob"; "test_sensitivity"].

(** Every value of the mapping is accepted by the JSON encoder. *)
Definition json_compatible (d : gmap string pyval) : Prop :=
  ∀ key v, d !! key = Some v → json_serializable v = true.

(** From [res] to [res'] the slots of day [t] of [n_tested] and [n_diagnoses]
    grew by [n_t] and [n_d]; every other slot, every other entry and the
    lengths of all series are as before. *)
Definition counters_grow (t : nat) (res res' : gmap string Result) (n_t n_d : nat) : Prop :=
  (∀ t', value_at res' "n_tested" t'
         = (value_at res "n_tested" t' + if decide (t' = t) then Z.of_nat n_t else 0)%Z)
  ∧ (∀ t', value_at res' "n_diagnoses" t'
           = (value_at res "n_diagnoses" t' + if decide (t' = t) then Z.of_nat n_d else 0)%Z)
  ∧ (∀ key, key ≠ "n_tested" → key ≠ "n_diagnoses" → res' !! key = res !! key)
  ∧ (∀ npts key, series npts res key → series npts res' key).

(** Each slot of [n_diagnoses] lies between 0 and the slot of [n_tested]. *)
Definition diagnoses_within_tests (res : gmap string Result) : Prop :=
  ∀ t, (0 ≤ value_at res "n_diagnoses" t ≤ value_at res "n_tested" t)%Z.

(** What the loop of [TestProp.apply] has done when it has run over the
    people [ps], the first of them at index [k], and returned: [ps'] are the
    people afterwards, [res'] and [new'] the results and the new set of
    scheduled tests, [ext] what was done.  The people tested are tested once
    each, in index order; those counted are among those tested and are
    diagnosed afterwards; those not tested are as before; every index
    scheduled is a contact of a person counted in this call. *)
Definition call_facts `{World} (self : TestProp.t) (t k : nat) (ps ps' : list Person)
    (res res' : gmap string Result) (new new' : gset nat) (ext : list event) : Prop :=
  length ps' = length ps
  ∧ counters_grow t res res' (length (tested_inds ext)) (length (counted_inds ext))
  ∧ new' = list_to_set (scheduled_inds ext) ∪ new
  ∧ counted_inds ext `sublist_of` tested_inds ext
  ∧ tested_inds ext `sublist_of` seq k (length ps)
  ∧ (∀ j, (k + j) ∉ tested_inds ext → ps' !! j = ps !! j)
  ∧ (∀ j, (k + j) ∈ counted_inds ext → ∃ p', ps' !! j = Some p' ∧ diagnosed p' = true)
  ∧ (∀ idx, idx ∈ scheduled_inds ext →
       ∃ j p', ps' !! j = Some p' ∧ (k + j) ∈ counted_inds ext ∧ idx ∈ contact_inds p')
  ∧ (truthy (TestProp.trace_prob self) = false → scheduled_inds ext = []).

(** * Properties *)

Import ChangeBeta(days, changes, orig_beta).

Example errormsg_2_1 :
  ChangeBeta.errormsg 2 1
  = "Number of days supplied (2) does not match number of changes in beta (1)".
Proof. vm_compute. reflexivity. Qed.

Example change_beta_days_14_28 :
  (self ← ChangeBeta.init (Seq [14; 28]%Z) (Seq [7 # 10; 1]%Q);
   '(_, sim) ← ChangeBeta.run self (Toy.sim_of (1 # 2) []) ((fun t => (t, id)) <$> seq 0 15);
   Ok (Qred (beta sim))) = Ok (7 # 20)%Q.
Proof. vm_compute. reflexivity. Qed.

Example change_beta_back_on_28 :
  (self ← ChangeBeta.init (Seq [14; 28]%Z) (Seq [7 # 10; 1]%Q);
   '(_, sim) ← ChangeBeta.run self (Toy.sim_of (1 # 2) []) ((fun t => (t, id)) <$> seq 0 29);
   Ok (Qred (beta sim))) = Ok (1 # 2)%Q.
Proof. vm_compute. reflexivity. Qed.

Example test_num_skips_the_diagnosed :
  (let '(_, _, _, log) :=
     default (TestNum.init 1 [] 100 1 1, Toy.sim_of 1 [], [], [])
       (match TestNum.apply (TestNum.init 1 [Tests 2] 100 1 1)
                (Toy.sim_of 1 [Toy.known []; Toy.healthy; Toy.sick []]) 0
                [(1 # 2)%Q; (99 # 100)%Q] with
        | Ok out => Some out
        | Err _ => None
        end) in log)
  = [Tested 2 0 1%Q; Counted 2; Tested 1 0 1%Q].
Proof. vm_compute. reflexivity. Qed.

Example test_num_without_budget :
  TestNum.apply (TestNum.init 1 [NonFinite] 100 1 1)
    (Toy.sim_of 1 [Toy.known []; Toy.healthy]) 0 []
  = Ok (TestNum.init 1 [NonFinite] 100 1 1, Toy.sim_of 1 [Toy.known []; Toy.healthy], [], []).
Proof. reflexivity. Qed.

(** ** ChangeBeta: construction *)

Lemma ChangeBeta_init_ok (d : arg Z) (c : arg Q) :
  length (promotetoarray d) = length (promotetoarray c) →
  ChangeBeta.init d c
  = Ok (ChangeBeta.mk ∅ (promotetoarray d) (promotetoarray c) None).
Proof.
  intros Hlen. unfold ChangeBeta.init.
  rewrite Hlen, Nat.eqb_refl. reflexivity.
Qed.

Lemma ChangeBeta_init_err (d : arg Z) (c : arg Q) :
  length (promotetoarray d) ≠ length (promotetoarray c) →
  ChangeBeta.init d c
  = Err (ValueError (ChangeBeta.errormsg (length (promotetoarray d))
                                         (length (promotetoarray c)))).
Proof.
  intros Hlen. unfold ChangeBeta.init.
  apply Nat.eqb_neq in Hlen. rewrite Hlen. reflexivity.
Qed.

Lemma ChangeBeta_init_inv (d : arg Z) (c : arg Q) (self : ChangeBeta.t) :
  ChangeBeta.init d c = Ok self →
  length (promotetoarray d) = length (promotetoarray c)
  ∧ self = ChangeBeta.mk ∅ (promotetoarray d) (promotetoarray c) None.
Proof.
  intros Hinit.
  destruct (decide (length (promotetoarray d) = length (promotetoarray c))) as [Hlen|Hlen].
  - rewrite (ChangeBeta_init_ok _ _ Hlen) in Hinit. split; congruence.
  - rewrite (ChangeBeta_init_err _ _ Hlen) in Hinit. discriminate.
Qed.

(** C5.  Constructing [ChangeBeta] from [days] and [changes] (scalars or
    sequences, promoted to arrays) raises if and only if the two arrays differ
    in length; the error is a [ValueError] whose message spells out both
    lengths; with equal lengths the instance is built, holding the two arrays
    and no baseline yet. *)
Theorem ChangeBeta_init_fails_iff_lengths_differ (d : arg Z) (c : arg Q) :
  let nd := length (promotetoarray d) in
  let nc := length (promotetoarray c) in
  (∀ e, ChangeBeta.init d c = Err e ↔
        nd ≠ nc ∧
        e = ValueError ("Number of days supplied (" +:+ pretty nd
              +:+ ") does not match number of changes in beta (" +:+ pretty nc +:+ ")"))
  ∧ (∀ self, ChangeBeta.init d c = Ok self ↔
        nd = nc ∧ self = ChangeBeta.mk ∅ (promotetoarray d) (promotetoarray c) None).
Proof.
  intros nd nc. subst nd nc. split.
  - intros e. split.
    + intros Hinit.
      destruct (decide (length (promotetoarray d) = length (promotetoarray c))) as [Hlen|Hlen].
      * rewrite (ChangeBeta_init_ok _ _ Hlen) in Hinit. discriminate.
      * rewrite (ChangeBeta_init_err _ _ Hlen) in Hinit. split; [exact Hlen|].
        inversion Hinit. reflexivity.
    + intros [Hlen ->]. apply ChangeBeta_init_err. exact Hlen.
  - intros self. split.
    + apply ChangeBeta_init_inv.
    + intros [Hlen ->]. apply ChangeBeta_init_ok. exact Hlen.
Qed.

Lemma ChangeBeta_init_fails_iff_lengths_differ_witness :
  ChangeBeta.init (Seq [1; 2]%Z) (Scalar (1 # 2)%Q)
  = Err (ValueError "Number of days supplied (2) does not match number of changes in beta (1)")
  ∧ ChangeBeta.init (Scalar 25%Z) (Scalar (3 # 10)%Q)
    = Ok (ChangeBeta.mk ∅ [25%Z] [(3 # 10)%Q] None).
Proof.
  split.
  - apply (ChangeBeta_init_fails_iff_lengths_differ (Seq [1; 2]%Z) (Scalar (1 # 2)%Q)).
    split; [simpl; lia | vm_compute; reflexivity].
  - apply (ChangeBeta_init_fails_iff_lengths_differ (Scalar 25%Z) (Scalar (3 # 10)%Q)).
    split; reflexivity.
Defined.

(** ** ChangeBeta: the value of beta *)

Lemma foldl_Qmult_product (l : list Q) (b : Q) :
  (foldl Qmult b l == b * ChangeBeta.product l)%Q.
Proof.
  revert b. induction l as [|x l IH]; intros b; simpl.
  - ring.
  - rewrite IH. unfold ChangeBeta.product. ring.
Qed.

Lemma scheduled_cons (d : Z) (ds : list Z) (c : Q) (cs : list Q) (t : nat) :
  ChangeBeta.scheduled (d :: ds) (c :: cs) t
  = if (d =? Z.of_nat t)%Z then c :: ChangeBeta.scheduled ds cs t
    else ChangeBeta.scheduled ds cs t.
Proof.
  unfold ChangeBeta.scheduled. simpl. rewrite filter_cons. simpl.
  destruct (Z.eqb_spec d (Z.of_nat t)) as [Heq|Hne].
  - rewrite decide_True by exact Heq. reflexivity.
  - rewrite decide_False by exact Hne. reflexivity.
Qed.

(** The indices found by [findinds] read, in [changes], the factors the
    schedule gives for the day. *)
Lemma multiply_findinds (ds : list Z) (cs pre : list Q) (t : nat) (b : Q) :
  length ds = length cs →
  ChangeBeta.multiply (pre ++ cs) (findinds_from (length pre) ds (Z.of_nat t)) b
  = Ok (foldl Qmult b (ChangeBeta.scheduled ds cs t)).
Proof.
  revert cs pre b. induction ds as [|d ds IH]; intros cs pre b Hlen.
  - destruct cs; [reflexivity | discriminate].
  - destruct cs as [|c cs]; [discriminate|].
    injection Hlen as Hlen. rewrite scheduled_cons. simpl.
    assert (Hstep : ∀ b',
      ChangeBeta.multiply (pre ++ c :: cs) (findinds_from (S (length pre)) ds (Z.of_nat t)) b'
      = Ok (foldl Qmult b' (ChangeBeta.scheduled ds cs t))).
    { intros b'. specialize (IH cs (pre ++ [c]) b' Hlen).
      rewrite length_app, Nat.add_1_r, <- app_assoc in IH. exact IH. }
    destruct (d =? Z.of_nat t)%Z; simpl.
    + rewrite lookup_app_r by lia. rewrite Nat.sub_diag. simpl. apply Hstep.
    + apply Hstep.
Qed.

Lemma findinds_length (ds : list Z) (cs : list Q) (i : nat) (t : nat) :
  length ds = length cs →
  length (findinds_from i ds (Z.of_nat t)) = length (ChangeBeta.scheduled ds cs t).
Proof.
  revert cs i. induction ds as [|d ds IH]; intros cs i Hlen.
  - destruct cs; [reflexivity | discriminate].
  - destruct cs as [|c cs]; [discriminate|].
    injection Hlen as Hlen. rewrite scheduled_cons. simpl.
    destruct (d =? Z.of_nat t)%Z; simpl; rewrite (IH cs); auto.
Qed.

Section change_beta.
Context `{World}.

(** One call of [apply], for a schedule of equal lengths. *)
Lemma ChangeBeta_apply_step (self : ChangeBeta.t) (sim : Sim) (t : nat) :
  length (days self) = length (changes self) →
  let orig := default (beta sim) (orig_beta self) in
  let factors := ChangeBeta.scheduled (days self) (changes self) t in
  ChangeBeta.apply self sim t
  = Ok (ChangeBeta.mk (ChangeBeta.results self) (days self) (changes self) (Some orig),
        match factors with
        | [] => sim
        | _ => set_beta sim (foldl Qmult orig factors)
        end).
Proof.
  intros Hlen orig factors. unfold ChangeBeta.apply. simpl.
  unfold findinds. rewrite (findinds_length _ (changes self) _ _ Hlen).
  fold factors.
  replace (match orig_beta self with Some b => b | None => beta sim end)
    with orig by (unfold orig; destruct (orig_beta self); reflexivity).
  destruct factors as [|f fs] eqn:Hf; simpl; [reflexivity|].
  pose proof (multiply_findinds (days self) (changes self) [] t orig Hlen) as Hm.
  simpl in Hm. rewrite Hm. fold factors. rewrite Hf. reflexivity.
Qed.

(** A run keeps the schedule, and keeps a baseline once it is captured. *)
Lemma ChangeBeta_run_captured (steps : list (nat * (Sim → Sim)))
    (self : ChangeBeta.t) (sim : Sim) (b : Q) :
  length (days self) = length (changes self) →
  orig_beta self = Some b →
  ∃ self' sim',
    ChangeBeta.run self sim steps = Ok (self', sim')
    ∧ days self' = days self ∧ changes self' = changes self
    ∧ orig_beta self' = Some b.
Proof.
  revert self sim. induction steps as [|[t rest] steps IH]; intros self sim Hlen Horig.
  - exists self, sim. simpl. auto.
  - simpl. rewrite (ChangeBeta_apply_step self sim t Hlen). simpl.
    rewrite Horig. simpl.
    match goal with |- context [ChangeBeta.run ?s ?m steps] =>
      destruct (IH s m) as (self' & sim' & Hrun & Hd & Hc & Ho); [exact Hlen|reflexivity|]
    end.
    exists self', sim'. auto.
Qed.

(** C1.  Let the instance be built from a schedule of equal lengths and let
    [apply] be called at the timesteps of [steps] and then at [t], the first
    of these calls seeing the simulation [sim0], whatever the rest of the
    simulation does to it between the calls.  All calls return; the baseline
    held after the call at [t] is the beta of [sim0]; when the schedule has
    entries for day [t], beta after the call is this baseline multiplied, in
    schedule order, by the changes of these entries (equal, as a number, to
    the baseline times their product), whatever beta was before the call;
    when it has none, the call leaves the simulation as it was. *)
Theorem ChangeBeta_apply_determinism
    (d : arg Z) (c : arg Q) (self0 : ChangeBeta.t) (sim0 : Sim)
    (steps : list (nat * (Sim → Sim))) (t : nat) :
  ChangeBeta.init d c = Ok self0 →
  ∃ self1 sim1 self2 sim2,
    ChangeBeta.run self0 sim0 steps = Ok (self1, sim1)
    ∧ ChangeBeta.apply self1 sim1 t = Ok (self2, sim2)
    ∧ orig_beta self2 = Some (beta sim0)
    ∧ let factors := ChangeBeta.scheduled (promotetoarray d) (promotetoarray c) t in
      (factors ≠ [] →
         beta sim2 = foldl Qmult (beta sim0) factors
         ∧ (beta sim2 == beta sim0 * ChangeBeta.product factors)%Q)
      ∧ (factors = [] → sim2 = sim1).
Proof.
  intros Hinit. apply ChangeBeta_init_inv in Hinit as [Hlen ->].
  set (self0 := ChangeBeta.mk ∅ (promotetoarray d) (promotetoarray c) None).
  assert (Hrun : ∃ self1 sim1,
    ChangeBeta.run self0 sim0 steps = Ok (self1, sim1)
    ∧ days self1 = promotetoarray d ∧ changes self1 = promotetoarray c
    ∧ default (beta sim1) (orig_beta self1) = beta sim0).
  { destruct steps as [|[t0 rest] steps].
    - exists self0, sim0. simpl. auto.
    - simpl. rewrite (ChangeBeta_apply_step self0 sim0 t0 Hlen). simpl.
      match goal with |- context [ChangeBeta.run ?s ?m steps] =>
        destruct (ChangeBeta_run_captured steps s m (beta sim0))
          as (self1 & sim1 & Hrun & Hd & Hc & Ho); [exact Hlen|reflexivity|]
      end.
      exists self1, sim1. rewrite Ho. simpl in Hd, Hc. auto. }
  destruct Hrun as (self1 & sim1 & Hrun & Hd & Hc & Ho).
  assert (Hlen1 : length (days self1) = length (changes self1)) by (rewrite Hd, Hc; exact Hlen).
  pose proof (ChangeBeta_apply_step self1 sim1 t Hlen1) as Happ. simpl in Happ.
  rewrite Ho, Hd, Hc in Happ.
  eexists self1, sim1, _, _. split; [exact Hrun|]. split; [exact Happ|].
  split; [reflexivity|]. simpl. split.
  - intros Hne.
    destruct (ChangeBeta.scheduled (promotetoarray d) (promotetoarray c) t) as [|f fs] eqn:Hf;
      [contradiction|].
    simpl. split; [reflexivity|]. apply (foldl_Qmult_product (f :: fs)).
  - intros ->. reflexivity.
Qed.
End change_beta.

Lemma ChangeBeta_apply_determinism_witness :
  ∃ self1 sim1 self2 sim2,
    ChangeBeta.run (ChangeBeta.mk ∅ [14; 28; 14]%Z [7 # 10; 1; 1 # 2]%Q None)
                   (Toy.sim_of (1 # 2) [])
                   [(3, id); (14, fun sim => set_beta sim 2); (20, id)] = Ok (self1, sim1)
    ∧ ChangeBeta.apply self1 sim1 14 = Ok (self2, sim2)
    ∧ orig_beta self2 = Some (1 # 2)%Q
    ∧ beta sim2 = ((1 # 2) * (7 # 10) * (1 # 2))%Q.
Proof.
  destruct (ChangeBeta_apply_determinism (Seq [14; 28; 14]%Z) (Seq [7 # 10; 1; 1 # 2]%Q)
              (ChangeBeta.mk ∅ [14; 28; 14]%Z [7 # 10; 1; 1 # 2]%Q None)
              (Toy.sim_of (1 # 2) [])
              [(3, id); (14, fun sim => set_beta sim 2); (20, id)] 14 eq_refl)
    as (self1 & sim1 & self2 & sim2 & Hrun & Happ & Horig & Hsome & _).
  exists self1, sim1, self2, sim2. split; [exact Hrun|]. split; [exact Happ|].
  split; [exact Horig|].
  apply Hsome. discriminate.
Defined.

(** ** Counter series and cumulative sums *)

Lemma cumsum_from_lookup (l : list Z) (acc : Z) (t : nat) :
  t < length l →
  cumsum_from acc l !! t = Some (acc + sum_upto l t)%Z.
Proof.
  revert acc t. induction l as [|x l IH]; intros acc t Ht; simpl in Ht; [lia|].
  destruct t as [|t]; simpl.
  - unfold sum_upto. simpl. rewrite ?take_0. simpl. f_equal. lia.
  - rewrite IH by lia. unfold sum_upto. simpl. f_equal. lia.
Qed.

Lemma cumsum_from_length (l : list Z) (acc : Z) :
  length (cumsum_from acc l) = length l.
Proof. revert acc. induction l as [|x l IH]; intros acc; simpl; [|rewrite IH]; reflexivity. Qed.

Lemma cumsum_lookup (l : list Z) (t : nat) :
  t < length l → cumsum l !! t = Some (sum_upto l t).
Proof. intros Ht. unfold cumsum. rewrite cumsum_from_lookup by exact Ht. f_equal. Qed.

Lemma set_cumulative_ok (npts : nat) (dst src : string) (res : gmap string Result) :
  dst ≠ src →
  series npts res src → series npts res dst →
  ∃ rs rd,
    res !! src = Some rs ∧ res !! dst = Some rd
    ∧ set_cumulative dst src res
      = Ok (<[dst := {| name := name rd; values := cumsum (values rs) |}]> res).
Proof.
  intros Hne (rs & Hrs & _) (rd & Hrd & _). exists rs, rd.
  unfold set_cumulative. rewrite Hrs, Hrd. auto.
Qed.

Lemma series_insert (npts : nat) (res : gmap string Result) (key key' : string) (r : Result) :
  length (values r) = npts →
  series npts res key' →
  series npts (<[key := r]> res) key'.
Proof.
  intros Hr (r' & Hr' & Hlen). unfold series.
  destruct (decide (key = key')) as [->|Hne].
  - exists r. rewrite lookup_insert_eq. auto.
  - exists r'. rewrite lookup_insert_ne by exact Hne. auto.
Qed.

Section finalize.
Context `{World}.

(** C4.  After [finalize] of [TestNum], and of [TestProp], on an instance
    whose series have [npts] slots: for every timestep [t] below [npts] the
    slot [t] of [cum_diagnoses] is the sum of the slots 0 to [t] of
    [n_diagnoses], for [TestProp] the slot [t] of [cum_tested] is likewise
    the sum of the slots 0 to [t] of [n_tested], the per-day series are as
    they were, and every series of the instance is in the results of the
    simulation. *)
Theorem finalize_cumulative_series (npts : nat) (sim : Sim) :
  (∀ self : TestNum.t,
     series npts (TestNum.results self) "n_diagnoses" →
     series npts (TestNum.results self) "cum_diagnoses" →
     ∃ self' sim' nd cd,
       TestNum.finalize self sim = Ok (self', sim')
       ∧ TestNum.results self !! "n_diagnoses" = Some nd
       ∧ TestNum.results self' !! "n_diagnoses" = Some nd
       ∧ TestNum.results self' !! "cum_diagnoses" = Some cd
       ∧ (∀ t, t < npts → values cd !! t = Some (sum_upto (values nd) t))
       ∧ (∀ key r, TestNum.results self' !! key = Some r →
                   sim_results sim' !! key = Some r))
  ∧ (∀ self : TestProp.t,
     series npts (TestProp.results self) "n_tested" →
     series npts (TestProp.results self) "n_diagnoses" →
     series npts (TestProp.results self) "cum_tested" →
     series npts (TestProp.results self) "cum_diagnoses" →
     ∃ self' sim' nt nd ct cd,
       TestProp.finalize self sim = Ok (self', sim')
       ∧ TestProp.results self !! "n_tested" = Some nt
       ∧ TestProp.results self !! "n_diagnoses" = Some nd
       ∧ TestProp.results self' !! "n_tested" = Some nt
       ∧ TestProp.results self' !! "n_diagnoses" = Some nd
       ∧ TestProp.results self' !! "cum_tested" = Some ct
       ∧ TestProp.results self' !! "cum_diagnoses" = Some cd
       ∧ (∀ t, t < npts → values ct !! t = Some (sum_upto (values nt) t))
       ∧ (∀ t, t < npts → values cd !! t = Some (sum_upto (values nd) t))
       ∧ (∀ key r, TestProp.results self' !! key = Some r →
                   sim_results sim' !! key = Some r)).
Proof.
  split.
  - intros self Hnd Hcd.
    destruct (set_cumulative_ok npts "cum_diagnoses" "n_diagnoses" _ ltac:(done) Hnd Hcd)
      as (nd & cd & Hlnd & Hlcd & Hset).
    destruct Hnd as (nd' & Hnd' & Hlen). rewrite Hlnd in Hnd'. injection Hnd' as <-.
    eexists _, _, nd, _. unfold TestNum.finalize. rewrite Hset. simpl.
    split; [reflexivity|]. split; [exact Hlnd|]. simpl.
    split; [rewrite lookup_insert_ne by done; exact Hlnd|].
    split; [apply lookup_insert_eq|].
    split.
    + intros t Ht. simpl. apply cumsum_lookup. lia.
    + intros key r Hkey. apply lookup_union_Some_l. exact Hkey.
  - intros self Hnt Hnd Hct Hcd.
    destruct (set_cumulative_ok npts "cum_tested" "n_tested" _ ltac:(done) Hnt Hct)
      as (nt & ct & Hlnt & Hlct & Hset1).
    set (res1 := <["cum_tested" := {| name := name ct; values := cumsum (values nt) |}]>
                   (TestProp.results self)) in *.
    assert (Hlen1 : length (cumsum (values nt)) = npts).
    { unfold cumsum. rewrite cumsum_from_length.
      destruct Hnt as (nt' & Hnt' & Hlen). congruence. }
    assert (Hnd1 : series npts res1 "n_diagnoses") by (apply series_insert; done).
    assert (Hcd1 : series npts res1 "cum_diagnoses") by (apply series_insert; done).
    destruct (set_cumulative_ok npts "cum_diagnoses" "n_diagnoses" _ ltac:(done) Hnd1 Hcd1)
      as (nd & cd & Hlnd & Hlcd & Hset2).
    destruct Hnt as (nt' & Hnt' & Hlent). rewrite Hlnt in Hnt'. injection Hnt' as <-.
    destruct Hnd as (nd' & Hnd' & Hlend).
    assert (Hnd'' : TestProp.results self !! "n_diagnoses" = Some nd).
    { unfold res1 in Hlnd. rewrite lookup_insert_ne in Hlnd by done. exact Hlnd. }
    rewrite Hnd'' in Hnd'. injection Hnd' as <-.
    eexists _, _, nt, nd, _, _. unfold TestProp.finalize. rewrite Hset1. simpl.
    rewrite Hset2. simpl.
    split; [reflexivity|]. split; [exact Hlnt|]. split; [exact Hnd''|]. simpl.
    split; [unfold res1; rewrite !lookup_insert_ne by done; exact Hlnt|].
    split; [rewrite lookup_insert_ne by done; exact Hlnd|].
    split; [unfold res1; rewrite lookup_insert_ne by done; apply lookup_insert_eq|].
    split; [apply lookup_insert_eq|].
    split; [|split].
    + intros t Ht. simpl. apply cumsum_lookup. lia.
    + intros t Ht. simpl. apply cumsum_lookup. lia.
    + intros key r Hkey. apply lookup_union_Some_l. exact Hkey.
Qed.
End finalize.

(** ** Increments of a counter *)

Lemma incr_spec (npts : nat) (key : string) (t : nat) (res : gmap string Result) :
  series npts res key → t < npts →
  ∃ res',
    incr key t res = Ok res'
    ∧ (∀ k, series npts res k → series npts res' k)
    ∧ value_at res' key t = (value_at res key t + 1)%Z
    ∧ (∀ k t', k ≠ key → value_at res' k t' = value_at res k t').
Proof.
  intros (r & Hr & Hlen) Ht.
  destruct (lookup_lt_is_Some_2 (values r) t) as [v Hv]; [lia|].
  eexists. unfold incr. rewrite Hr, Hv. split; [reflexivity|]. split; [|split].
  - intros k Hk. apply series_insert; [|exact Hk]. simpl. rewrite length_insert. exact Hlen.
  - unfold value_at. rewrite lookup_insert_eq, Hr. simpl.
    rewrite list_lookup_insert_eq by lia. rewrite Hv. reflexivity.
  - intros k t' Hk. unfold value_at. rewrite lookup_insert_ne by congruence. reflexivity.
Qed.

Lemma tested_inds_app (l1 l2 : list event) :
  tested_inds (l1 ++ l2) = tested_inds l1 ++ tested_inds l2.
Proof. apply omap_app. Qed.
Lemma counted_inds_app (l1 l2 : list event) :
  counted_inds (l1 ++ l2) = counted_inds l1 ++ counted_inds l2.
Proof. apply omap_app. Qed.
Lemma scheduled_inds_app (l1 l2 : list event) :
  scheduled_inds (l1 ++ l2) = scheduled_inds l1 ++ scheduled_inds l2.
Proof. apply omap_app. Qed.

Lemma elem_of_tested_inds (i : nat) (log : list event) :
  i ∈ tested_inds log ↔ ∃ t sens, Tested i t sens ∈ log.
Proof.
  unfold tested_inds. rewrite list_elem_of_omap. split.
  - intros (e & He & Hi). destruct e; try discriminate. injection Hi as ->. eauto.
  - intros (t & sens & He). eexists. split; [exact He|]. reflexivity.
Qed.
Lemma elem_of_counted_inds (i : nat) (log : list event) :
  i ∈ counted_inds log ↔ Counted i ∈ log.
Proof.
  unfold counted_inds. rewrite list_elem_of_omap. split.
  - intros (e & He & Hi). destruct e; try discriminate. injection Hi as ->. exact He.
  - intros He. eexists. split; [exact He|]. reflexivity.
Qed.
Lemma elem_of_scheduled_inds (i : nat) (log : list event) :
  i ∈ scheduled_inds log ↔ Scheduled i ∈ log.
Proof.
  unfold scheduled_inds. rewrite list_elem_of_omap. split.
  - intros (e & He & Hi). destruct e; try discriminate. injection Hi as ->. exact He.
  - intros He. eexists. split; [exact He|]. reflexivity.
Qed.

(** ** TestProp: the loop over the people *)

Section test_prop.
Context `{World}.
Implicit Types (self : TestProp.t) (st : TestProp.loop_state) (p : Person).

Lemma extends_refl t npts st : extends t npts st st [].
Proof.
  unfold extends. simpl. rewrite app_nil_r.
  repeat split; try lia; auto. set_solver.
Qed.

Lemma extends_trans t npts st1 st2 st3 ext1 ext2 :
  extends t npts st1 st2 ext1 → extends t npts st2 st3 ext2 →
  extends t npts st1 st3 (ext1 ++ ext2).
Proof.
  intros (Hl1 & Hs1 & Ht1 & Hc1 & Hn1) (Hl2 & Hs2 & Ht2 & Hc2 & Hn2).
  unfold extends. rewrite Hl2, Hl1, Ht2, Ht1, Hc2, Hc1, Hn2, Hn1.
  rewrite tested_inds_app, counted_inds_app, scheduled_inds_app, !length_app.
  repeat split; try lia; auto.
  - rewrite app_assoc. reflexivity.
  - rewrite list_to_set_app_L. set_solver.
Qed.

Lemma trace_spec self p (idxs : list nat) (new : gset nat) (rng : RNG) (log : list event) :
  ∃ ext rng',
    TestProp.trace self p idxs new rng log
    = (list_to_set (scheduled_inds ext) ∪ new, rng', log ++ ext)
    ∧ tested_inds ext = [] ∧ counted_inds ext = []
    ∧ (∀ idx, idx ∈ scheduled_inds ext → idx ∈ idxs)
    ∧ (diagnosed p = true → truthy (TestProp.trace_prob self) = true →
       (∀ r, (bt (TestProp.trace_prob self) r).1 = true) →
       ∀ idx, idx ∈ idxs → idx ∈ scheduled_inds ext).
Proof.
  revert new rng log. induction idxs as [|idx idxs IH]; intros new rng log.
  - exists [], rng. simpl. rewrite app_nil_r.
    repeat split; auto; try set_solver.
    f_equal. f_equal. set_solver.
  - simpl.
    destruct (if diagnosed p && truthy (TestProp.trace_prob self)
              then bt (TestProp.trace_prob self) rng else (false, rng))
      as [hit rng1] eqn:Hdraw.
    destruct hit.
    + destruct (IH ({[idx]} ∪ new) rng1 (log ++ [Scheduled idx]))
        as (ext & rng' & Htr & Hte & Hco & Hin & Hall).
      exists (Scheduled idx :: ext), rng'. rewrite Htr. simpl.
      rewrite <- app_assoc. simpl.
      split; [f_equal; f_equal; fold (scheduled_inds ext); set_solver|].
      split; [exact Hte|]. split; [exact Hco|]. split.
      * intros j Hj. fold (scheduled_inds ext) in Hj. set_solver.
      * intros Hd Htp Hbt j Hj. fold (scheduled_inds ext). set_solver.
    + destruct (IH new rng1 log) as (ext & rng' & Htr & Hte & Hco & Hin & Hall).
      exists ext, rng'. rewrite Htr.
      split; [reflexivity|]. split; [exact Hte|]. split; [exact Hco|]. split.
      * intros j Hj. set_solver.
      * intros Hd Htp Hbt j Hj. exfalso.
        rewrite Hd, Htp in Hdraw. simpl in Hdraw.
        specialize (Hbt rng). rewrite Hdraw in Hbt. discriminate.
Qed.

Lemma selected_scheduled self i p (rng : RNG) :
  i ∈ TestProp.scheduled_tests self → TestProp.selected self i p rng = (true, rng).
Proof. intros Hi. unfold TestProp.selected. rewrite decide_True by exact Hi. reflexivity. Qed.

(** One person of the loop.  With day [t] inside the series the body does
    not raise; a selected person is tested once, counted when found
    diagnosed after the test, and then has every contact put to the trial;
    a person who is not selected is left alone. *)
Lemma visit_spec self t npts i p st :
  t < npts →
  series npts (TestProp.l_results st) "n_tested" →
  series npts (TestProp.l_results st) "n_diagnoses" →
  ∃ p' st' ext,
    TestProp.visit self t i p st = Ok (p', st')
    ∧ extends t npts st st' ext
    ∧ (∀ j, j ∈ tested_inds ext ∨ j ∈ counted_inds ext → j = i)
    ∧ visited self t i p (TestProp.l_rng st) p' ext.
Proof.
  intros Ht Hnt Hnd. unfold TestProp.visit, visited.
  destruct (TestProp.selected self i p (TestProp.l_rng st)) as [sel rng1]; simpl.
  destruct sel; simpl.
  - destruct (incr_spec npts "n_tested" t _ Hnt Ht) as (res1 & Hi1 & Hs1 & Hv1 & Ho1).
    rewrite Hi1. simpl.
    destruct (test p t (TestProp.test_sensitivity self) rng1) as [p1 rng2] eqn:Htest.
    destruct (diagnosed p1) eqn:Hdiag.
    + destruct (incr_spec npts "n_diagnoses" t res1 (Hs1 _ Hnd) Ht)
        as (res2 & Hi2 & Hs2 & Hv2 & Ho2).
      rewrite Hi2. simpl.
      destruct (trace_spec self p1 (contact_inds p1) (TestProp.l_new_scheduled_tests st) rng2
                  ((TestProp.l_log st ++ [Tested i t (TestProp.test_sensitivity self)])
                     ++ [Counted i]))
        as (ext & rng3 & Htr & Hte & Hco & Hin & Hall).
      rewrite Htr.
      exists p1, (TestProp.mkLoop res2
                    (list_to_set (scheduled_inds ext) ∪ TestProp.l_new_scheduled_tests st)
                    rng3
                    (((TestProp.l_log st ++ [Tested i t (TestProp.test_sensitivity self)])
                        ++ [Counted i]) ++ ext)),
             (Tested i t (TestProp.test_sensitivity self) :: Counted i :: ext).
      split; [reflexivity|]. split; [|split; [|split]].
      * unfold extends. simpl. fold (tested_inds ext) (counted_inds ext) (scheduled_inds ext).
        rewrite Hte, Hco. simpl.
        split; [rewrite <- !app_assoc; reflexivity|].
        split; [auto|].
        split; [rewrite (Ho2 "n_tested") by done; rewrite Hv1; lia|].
        split; [rewrite Hv2, (Ho1 "n_diagnoses") by done; lia|].
        reflexivity.
      * simpl. fold (tested_inds ext) (counted_inds ext). rewrite Hte, Hco.
        intros j [Hj|Hj]; apply list_elem_of_singleton in Hj; exact Hj.
      * intros _. split; [reflexivity|]. split; [apply list_elem_of_here|].
        intros _. split; [apply list_elem_of_further, list_elem_of_here|].
        intros Htp Hbt idx Hidx. simpl. fold (scheduled_inds ext).
        apply Hall; auto.
      * discriminate.
    + exists p1, (TestProp.mkLoop res1 (TestProp.l_new_scheduled_tests st) rng2
                    (TestProp.l_log st ++ [Tested i t (TestProp.test_sensitivity self)])),
             [Tested i t (TestProp.test_sensitivity self)].
      split; [reflexivity|]. split; [|split; [|split]].
      * unfold extends. simpl.
        split; [reflexivity|]. split; [auto|].
        split; [rewrite Hv1; lia|].
        split; [rewrite (Ho1 "n_diagnoses") by done; lia|].
        set_solver.
      * simpl. intros j [Hj|Hj]; [apply list_elem_of_singleton in Hj; exact Hj|].
        apply elem_of_nil in Hj. contradiction.
      * intros _. split; [reflexivity|]. split; [apply list_elem_of_here|].
        intros Hd. congruence.
      * discriminate.
  - exists p, (TestProp.mkLoop (TestProp.l_results st) (TestProp.l_new_scheduled_tests st)
                 rng1 (TestProp.l_log st)), [].
    split; [reflexivity|]. split; [|split; [|split]].
    + unfold extends. simpl. rewrite app_nil_r.
      repeat split; auto; try lia. set_solver.
    + simpl. intros j [Hj|Hj]; apply elem_of_nil in Hj; contradiction.
    + discriminate.
    + auto.
Qed.

(** The whole loop, from index [k]: it does not raise, visits every person
    once and only touches indices of the people it runs over. *)
Lemma loop_spec self t npts (ps : list Person) :
  t < npts →
  ∀ k st,
    series npts (TestProp.l_results st) "n_tested" →
    series npts (TestProp.l_results st) "n_diagnoses" →
    ∃ ps' st' ext,
      TestProp.loop self t k ps st = Ok (ps', st')
      ∧ length ps' = length ps
      ∧ extends t npts st st' ext
      ∧ (∀ j, j ∈ tested_inds ext ∨ j ∈ counted_inds ext → k ≤ j < k + length ps)
      ∧ (∀ j p, ps !! j = Some p →
           ∃ rng p' ext1 ext2 ext3,
             ps' !! j = Some p' ∧ ext = ext1 ++ ext2 ++ ext3
             ∧ visited self t (k + j) p rng p' ext2).
Proof.
  intros Ht. induction ps as [|p0 ps IH]; intros k st Hnt Hnd.
  - exists [], st, []. simpl. split; [reflexivity|]. split; [reflexivity|].
    split; [apply extends_refl|]. split.
    + intros j [Hj|Hj]; apply elem_of_nil in Hj; contradiction.
    + intros j p Hj. discriminate.
  - destruct (visit_spec self t npts k p0 st Ht Hnt Hnd)
      as (p0' & st1 & e1 & Hvisit & Hext1 & Hown & Hfacts).
    assert (Hnt1 : series npts (TestProp.l_results st1) "n_tested")
      by (apply Hext1; exact Hnt).
    assert (Hnd1 : series npts (TestProp.l_results st1) "n_diagnoses")
      by (apply Hext1; exact Hnd).
    destruct (IH (S k) st1 Hnt1 Hnd1) as (ps' & st' & e2 & Hloop & Hlen & Hext2 & Hrange & Hat).
    exists (p0' :: ps'), st', (e1 ++ e2). simpl. rewrite Hvisit. simpl.
    rewrite Hloop. simpl.
    split; [reflexivity|]. split; [rewrite Hlen; reflexivity|].
    split; [eapply extends_trans; eassumption|]. split.
    + intros j. rewrite tested_inds_app, counted_inds_app, !elem_of_app.
      intros [[Hj|Hj]|[Hj|Hj]].
      * rewrite (Hown j) by auto. lia.
      * specialize (Hrange j (or_introl Hj)). lia.
      * rewrite (Hown j) by auto. lia.
      * specialize (Hrange j (or_intror Hj)). lia.
    + intros [|j] p Hj; simpl in Hj.
      * injection Hj as <-. exists (TestProp.l_rng st), p0', [], e1, e2.
        rewrite Nat.add_0_r. simpl. auto.
      * destruct (Hat j p Hj) as (rng & p' & x1 & x2 & x3 & Hp' & He2 & Hv).
        exists rng, p', (e1 ++ x1), x2, x3. simpl.
        split; [exact Hp'|]. split; [rewrite He2, <- app_assoc; reflexivity|].
        replace (k + S j) with (S k + j) by lia. exact Hv.
Qed.

(** One call of [TestProp.apply] on an instance whose two daily series have
    [npts] slots, on a day [t] below [npts]. *)
Lemma TestProp_apply_spec self (sim : Sim) t npts (rng : RNG) :
  t < npts →
  series npts (TestProp.results self) "n_tested" →
  series npts (TestProp.results self) "n_diagnoses" →
  ∃ self' sim' rng' log,
    TestProp.apply self sim t rng = Ok (self', sim', rng', log)
    ∧ length (people sim') = length (people sim)
    ∧ (∀ key, series npts (TestProp.results self) key → series npts (TestProp.results self') key)
    ∧ TestProp.test_sensitivity self' = TestProp.test_sensitivity self
    ∧ value_at (TestProp.results self') "n_tested" t
      = (value_at (TestProp.results self) "n_tested" t
         + Z.of_nat (length (tested_inds log)))%Z
    ∧ value_at (TestProp.results self') "n_diagnoses" t
      = (value_at (TestProp.results self) "n_diagnoses" t
         + Z.of_nat (length (counted_inds log)))%Z
    ∧ TestProp.scheduled_tests self' = list_to_set (scheduled_inds log)
    ∧ (∀ j, j ∈ tested_inds log ∨ j ∈ counted_inds log → j < length (people sim))
    ∧ (∀ j p, people sim !! j = Some p →
         ∃ r p' ext1 ext2 ext3,
           people sim' !! j = Some p' ∧ log = ext1 ++ ext2 ++ ext3
           ∧ visited self t j p r p' ext2).
Proof.
  intros Ht Hnt Hnd. unfold TestProp.apply.
  destruct (loop_spec self t npts (people sim) Ht 0
              (TestProp.mkLoop (TestProp.results self) ∅ rng []) Hnt Hnd)
    as (ps' & st' & ext & Hloop & Hlen & (Hlog & Hser & Hvt & Hvd & Hnew) & Hrange & Hat).
  rewrite Hloop. simpl in *. subst ext.
  eexists _, _, _, _. split; [reflexivity|]. simpl.
  split; [exact Hlen|]. split; [exact Hser|]. split; [reflexivity|].
  split; [exact Hvt|]. split; [exact Hvd|].
  split; [rewrite Hnew; set_solver|].
  split; [intros j Hj; specialize (Hrange j Hj); lia|].
  exact Hat.
Qed.
End test_prop.

Section test_prop_claims.
Context `{World}.
Implicit Types (self : TestProp.t) (p : Person).

(** C2.  Let [apply] at day [t] have returned, and let [i] be in the set of
    scheduled tests it left.  Whatever the simulation and the random source
    are when [apply] is called at day [t+1] (a day of the series), if [i] is
    the index of a person [p] then this call returns, it calls [test] on [p]
    with day [t+1] and the test sensitivity, and [n_tested[t+1]] has grown
    by the number of tests of the call, the one of [i] among them. *)
Theorem TestProp_forced_retest
    npts self0 (sim0 : Sim) t (rng0 : RNG) self1 (sim1 : Sim) (rng1 : RNG) log1
    (sim2 : Sim) (rng2 : RNG) i p :
  S t < npts →
  series npts (TestProp.results self0) "n_tested" →
  series npts (TestProp.results self0) "n_diagnoses" →
  TestProp.apply self0 sim0 t rng0 = Ok (self1, sim1, rng1, log1) →
  i ∈ TestProp.scheduled_tests self1 →
  people sim2 !! i = Some p →
  ∃ self2 sim3 rng3 log2,
    TestProp.apply self1 sim2 (S t) rng2 = Ok (self2, sim3, rng3, log2)
    ∧ Tested i (S t) (TestProp.test_sensitivity self0) ∈ log2
    ∧ i ∈ tested_inds log2
    ∧ value_at (TestProp.results self2) "n_tested" (S t)
      = (value_at (TestProp.results self1) "n_tested" (S t)
         + Z.of_nat (length (tested_inds log2)))%Z
    ∧ ∃ r, people sim3 !! i = Some (test p (S t) (TestProp.test_sensitivity self0) r).1.
Proof.
  intros Ht Hnt Hnd Happ1 Hi Hp.
  destruct (TestProp_apply_spec self0 sim0 t npts rng0 ltac:(lia) Hnt Hnd)
    as (s1 & m1 & r1 & l1 & Happ1' & _ & Hser1 & Hsens1 & _).
  rewrite Happ1 in Happ1'. injection Happ1' as <- <- <- <-.
  destruct (TestProp_apply_spec self1 sim2 (S t) npts rng2 Ht (Hser1 _ Hnt) (Hser1 _ Hnd))
    as (self2 & sim3 & rng3 & log2 & Happ2 & _ & _ & _ & Hvt & _ & _ & _ & Hat).
  destruct (Hat i p Hp) as (r & p' & ext1 & ext2 & ext3 & Hp' & Hlog & Hsel & _).
  rewrite (selected_scheduled self1 i p r Hi) in Hsel. simpl in Hsel.
  destruct (Hsel eq_refl) as (-> & Htested & _).
  rewrite Hsens1 in Htested, Hp'.
  assert (Hin : Tested i (S t) (TestProp.test_sensitivity self0) ∈ log2).
  { rewrite Hlog, !elem_of_app. auto. }
  exists self2, sim3, rng3, log2. split; [exact Happ2|]. split; [exact Hin|].
  split; [apply elem_of_tested_inds; eauto|]. split; [exact Hvt|].
  exists r. exact Hp'.
Qed.

(** The general part of C6: the set of scheduled tests left by a call of
    [apply] holds the indices added during this call and nothing else. *)
Lemma TestProp_scheduled_tests_fresh npts self (sim : Sim) t (rng : RNG) :
  t < npts →
  series npts (TestProp.results self) "n_tested" →
  series npts (TestProp.results self) "n_diagnoses" →
  ∃ self' sim' rng' log,
    TestProp.apply self sim t rng = Ok (self', sim', rng', log)
    ∧ (∀ i, i ∈ TestProp.scheduled_tests self' ↔ Scheduled i ∈ log).
Proof.
  intros Ht Hnt Hnd.
  destruct (TestProp_apply_spec self sim t npts rng Ht Hnt Hnd)
    as (self' & sim' & rng' & log & Happ & _ & _ & _ & _ & _ & Hsched & _).
  exists self', sim', rng', log. split; [exact Happ|].
  intros i. rewrite Hsched, elem_of_list_to_set. apply elem_of_scheduled_inds.
Qed.

(** The general part of C10: a person who is already diagnosed and whose
    index is scheduled is tested, and, [test] never withdrawing a diagnosis,
    is counted in [n_diagnoses] of the day and traced again. *)
Lemma TestProp_recount npts self (sim : Sim) t (rng : RNG) i p :
  (∀ q d sens r, diagnosed q = true → diagnosed (test q d sens r).1 = true) →
  t < npts →
  series npts (TestProp.results self) "n_tested" →
  series npts (TestProp.results self) "n_diagnoses" →
  people sim !! i = Some p →
  diagnosed p = true →
  i ∈ TestProp.scheduled_tests self →
  ∃ self' sim' rng' log p',
    TestProp.apply self sim t rng = Ok (self', sim', rng', log)
    ∧ Tested i t (TestProp.test_sensitivity self) ∈ log
    ∧ Counted i ∈ log
    ∧ value_at (TestProp.results self') "n_diagnoses" t
      = (value_at (TestProp.results self) "n_diagnoses" t
         + Z.of_nat (length (counted_inds log)))%Z
    ∧ people sim' !! i = Some p'
    ∧ (truthy (TestProp.trace_prob self) = true →
       (∀ r, (bt (TestProp.trace_prob self) r).1 = true) →
       ∀ idx, idx ∈ contact_inds p' → idx ∈ TestProp.scheduled_tests self').
Proof.
  intros Hmono Ht Hnt Hnd Hp Hdiag Hi.
  destruct (TestProp_apply_spec self sim t npts rng Ht Hnt Hnd)
    as (self' & sim' & rng' & log & Happ & _ & _ & _ & _ & Hvd & Hsched & _ & Hat).
  destruct (Hat i p Hp) as (r & p' & ext1 & ext2 & ext3 & Hp' & Hlog & Hsel & _).
  rewrite (selected_scheduled self i p r Hi) in Hsel. simpl in Hsel.
  destruct (Hsel eq_refl) as (Hp'eq & Htested & Hcount).
  assert (Hd' : diagnosed p' = true) by (rewrite Hp'eq; apply Hmono; exact Hdiag).
  destruct (Hcount Hd') as (Hcounted & Htrace).
  exists self', sim', rng', log, p'. split; [exact Happ|].
  split; [rewrite Hlog, !elem_of_app; auto|].
  split; [rewrite Hlog, !elem_of_app; auto|].
  split; [exact Hvd|]. split; [exact Hp'|].
  intros Htp Hbt idx Hidx. rewrite Hsched, elem_of_list_to_set, Hlog.
  rewrite !scheduled_inds_app, !elem_of_app. right. left. apply Htrace; auto.
Qed.
End test_prop_claims.

Lemma TestProp_init_series (npts : nat) (sp ap tp sens : Q) (key : string) :
  key ∈ ["n_tested"; "n_diagnoses"; "cum_tested"; "cum_diagnoses"] →
  series npts (TestProp.results (TestProp.init npts sp ap tp sens)) key.
Proof.
  intros Hkey. unfold series, TestProp.init. simpl.
  repeat (apply elem_of_cons in Hkey as [->|Hkey]);
    [..|apply elem_of_nil in Hkey; contradiction];
    (eexists; split; [reflexivity|]; simpl; apply length_replicate).
Qed.


Lemma TestProp_forced_retest_witness :
  ∃ self1 sim1 rng1 log1 self2 sim3 rng3 log2,
    TestProp.apply Toy.policy Toy.sick_and_healthy 0 [] = Ok (self1, sim1, rng1, log1)
    ∧ log1 = [Tested 0 0 1%Q; Counted 0; Scheduled 1]
    ∧ TestProp.apply self1 sim1 1 [(95 # 100)%Q] = Ok (self2, sim3, rng3, log2)
    ∧ Tested 1 1 1%Q ∈ log2
    ∧ value_at (TestProp.results self2) "n_tested" 1
      = (value_at (TestProp.results self1) "n_tested" 1 + Z.of_nat (length (tested_inds log2)))%Z.
Proof.
  eexists _, _, _, _.
  assert (Hday0 : TestProp.apply Toy.policy Toy.sick_and_healthy 0 [] = Ok (_, _, _, _))
    by (vm_compute; reflexivity).
  destruct (TestProp_forced_retest 3 Toy.policy Toy.sick_and_healthy 0 [] _ _ _ _
              (Toy.sim_of 1 [Toy.known [1]; Toy.healthy]) [(95 # 100)%Q] 1 Toy.healthy
              ltac:(lia)
              (TestProp_init_series 3 _ _ _ _ "n_tested" ltac:(set_solver))
              (TestProp_init_series 3 _ _ _ _ "n_diagnoses" ltac:(set_solver))
              Hday0 ltac:(vm_compute; set_solver) eq_refl)
    as (self2 & sim3 & rng3 & log2 & Happ & Hin & _ & Hv & _).
  exists self2, sim3, rng3, log2.
  split; [exact Hday0|]. split; [reflexivity|]. split; [exact Happ|].
  split; [exact Hin|exact Hv].
Defined.

(** C6.  A call of [TestProp.apply] leaves as scheduled tests exactly the
    indices it added during this call: an index of the previous set that is
    not added again is absent afterwards.  Such an index need not be tested
    two days after it was scheduled: with a sick person whose contact is
    healthy, the contact is scheduled on day 0, tested on day 1 without being
    scheduled again, and not tested on day 2. *)
Theorem TestProp_one_step_lookahead :
  (∀ (W : World) npts (self : TestProp.t) (sim : Sim) t (rng : RNG),
     t < npts →
     series npts (TestProp.results self) "n_tested" →
     series npts (TestProp.results self) "n_diagnoses" →
     ∃ self' sim' rng' log,
       TestProp.apply self sim t rng = Ok (self', sim', rng', log)
       ∧ (∀ i, i ∈ TestProp.scheduled_tests self' ↔ Scheduled i ∈ log)
       ∧ (∀ i, i ∈ TestProp.scheduled_tests self → Scheduled i ∉ log →
               i ∉ TestProp.scheduled_tests self'))
  ∧ (∃ self1 sim1 rng1 log1 self2 sim2 rng2 log2 self3 sim3 rng3 log3,
       TestProp.apply Toy.policy Toy.sick_and_healthy 0 [] = Ok (self1, sim1, rng1, log1)
       ∧ TestProp.scheduled_tests self1 = {[1]}
       ∧ TestProp.apply self1 sim1 1 [(95 # 100)%Q] = Ok (self2, sim2, rng2, log2)
       ∧ tested_inds log2 = [1] ∧ scheduled_inds log2 = []
       ∧ TestProp.scheduled_tests self2 = ∅
       ∧ TestProp.apply self2 sim2 2 [(95 # 100)%Q] = Ok (self3, sim3, rng3, log3)
       ∧ tested_inds log3 = []).
Proof.
  split.
  - intros W npts self sim t rng Ht Hnt Hnd.
    destruct (TestProp_scheduled_tests_fresh npts self sim t rng Ht Hnt Hnd)
      as (self' & sim' & rng' & log & Happ & Hfresh).
    exists self', sim', rng', log. split; [exact Happ|]. split; [exact Hfresh|].
    intros i _ Hnot Hin. apply Hnot, Hfresh, Hin.
  - eexists _, _, _, _, _, _, _, _, _, _, _, _.
    split; [vm_compute; reflexivity|].
    split; [vm_compute; reflexivity|].
    split; [vm_compute; reflexivity|].
    split; [vm_compute; reflexivity|].
    split; [vm_compute; reflexivity|].
    split; [vm_compute; reflexivity|].
    split; [vm_compute; reflexivity|].
    vm_compute; reflexivity.
Qed.

Lemma TestProp_one_step_lookahead_witness :
  ∃ self' sim' rng' log,
    TestProp.apply Toy.policy Toy.sick_and_healthy 0 [] = Ok (self', sim', rng', log)
    ∧ (∀ i, i ∈ TestProp.scheduled_tests self' ↔ Scheduled i ∈ log).
Proof.
  destruct (proj1 TestProp_one_step_lookahead Toy.world 3 Toy.policy Toy.sick_and_healthy 0 []
              ltac:(lia)
              (TestProp_init_series 3 _ _ _ _ "n_tested" ltac:(set_solver))
              (TestProp_init_series 3 _ _ _ _ "n_diagnoses" ltac:(set_solver)))
    as (self' & sim' & rng' & log & Happ & Hfresh & _).
  exists self', sim', rng', log. split; [exact Happ|exact Hfresh].
Defined.

(** C10.  [TestProp.apply] tests a scheduled person who is already diagnosed;
    the check of [diagnosed] that follows the test reads the current flag, so
    that, [test] never withdrawing a diagnosis, the person is counted in
    [n_diagnoses] of the day again and the contacts are traced again.  The
    total of [n_diagnoses] can therefore exceed the number of diagnosed
    people: a sick person and a carrier who are each other's contact give
    three counted diagnoses in three days for two people. *)
Theorem TestProp_recounts_diagnoses :
  (∀ (W : World) npts (self : TestProp.t) (sim : Sim) t (rng : RNG) i (p : Person),
     (∀ q d sens r, diagnosed q = true → diagnosed (test q d sens r).1 = true) →
     t < npts →
     series npts (TestProp.results self) "n_tested" →
     series npts (TestProp.results self) "n_diagnoses" →
     people sim !! i = Some p →
     diagnosed p = true →
     i ∈ TestProp.scheduled_tests self →
     ∃ self' sim' rng' log p',
       TestProp.apply self sim t rng = Ok (self', sim', rng', log)
       ∧ Tested i t (TestProp.test_sensitivity self) ∈ log
       ∧ Counted i ∈ log
       ∧ value_at (TestProp.results self') "n_diagnoses" t
         = (value_at (TestProp.results self) "n_diagnoses" t
            + Z.of_nat (length (counted_inds log)))%Z
       ∧ people sim' !! i = Some p'
       ∧ (truthy (TestProp.trace_prob self) = true →
          (∀ r, (bt (TestProp.trace_prob self) r).1 = true) →
          ∀ idx, idx ∈ contact_inds p' → idx ∈ TestProp.scheduled_tests self'))
  ∧ (∃ self' sim' logs,
       run_TestProp Toy.policy Toy.sick_and_carrier Toy.three_days = Ok (self', sim', logs)
       ∧ logs = [[Tested 0 0 1%Q; Counted 0; Scheduled 1];
                 [Tested 1 1 1%Q; Counted 1; Scheduled 0];
                 [Tested 0 2 1%Q; Counted 0; Scheduled 1]]
       ∧ series_total (TestProp.results self') "n_diagnoses" = 3%Z
       ∧ n_diagnosed sim' = 2
       ∧ (Z.of_nat (length (people sim'))
          < series_total (TestProp.results self') "n_diagnoses")%Z).
Proof.
  split.
  - intros W npts self sim t rng i p Hmono Ht Hnt Hnd Hp Hdiag Hi.
    apply (TestProp_recount npts self sim t rng i p Hmono Ht Hnt Hnd Hp Hdiag Hi).
  - eexists _, _, _.
    split; [vm_compute; reflexivity|].
    split; [reflexivity|].
    split; [vm_compute; reflexivity|].
    split; [vm_compute; reflexivity|].
    vm_compute; reflexivity.
Qed.

Lemma Toy_test_keeps_diagnosis (q : Toy.person) (d : nat) (sens : Q) (r : list Q) :
  @diagnosed Toy.world q = true → @diagnosed Toy.world (@test Toy.world q d sens r).1 = true.
Proof.
  simpl. unfold Toy.toy_test. intros Hq.
  destruct (Toy.p_infectious q); [|exact Hq].
  destruct (Toy.toy_bt sens r) as [hit r']. destruct hit; [reflexivity|exact Hq].
Defined.

Lemma TestProp_recounts_diagnoses_witness :
  ∃ self' sim' rng' log,
    TestProp.apply (TestProp.set_scheduled_tests Toy.policy {[0]})
                   (Toy.sim_of 1 [Toy.known [1]; Toy.healthy]) 2 [] = Ok (self', sim', rng', log)
    ∧ Tested 0 2 1%Q ∈ log ∧ Counted 0 ∈ log.
Proof.
  destruct (proj1 TestProp_recounts_diagnoses Toy.world 3
              (TestProp.set_scheduled_tests Toy.policy {[0]})
              (Toy.sim_of 1 [Toy.known [1]; Toy.healthy]) 2 [] 0 (Toy.known [1])
              Toy_test_keeps_diagnosis
              ltac:(lia)
              (TestProp_init_series 3 _ _ _ _ "n_tested" ltac:(set_solver))
              (TestProp_init_series 3 _ _ _ _ "n_diagnoses" ltac:(set_solver))
              eq_refl eq_refl ltac:(set_solver))
    as (self' & sim' & rng' & log & p' & Happ & Htested & Hcounted & _).
  exists self', sim', rng', log. split; [exact Happ|].
  split; [exact Htested|exact Hcounted].
Defined.

(** ** Weighted choice: what is drawn *)







Section draw.
Context `{World}.


End draw.

(** ** TestNum: weights *)













Section test_num.
Context `{World}.
Implicit Types (self : TestNum.t) (p : Person).



(** The loop over the chosen indices: each one is tested once, and
    [n_diagnoses] of the day counts those found diagnosed. *)
Lemma test_loop_spec self t npts (inds : list nat) :
  t < npts →
  ∀ res (sim : Sim) (rng : RNG) log,
    (∀ i, i ∈ inds → i < length (people sim)) →
    series npts res "n_diagnoses" →
    ∃ res' sim' rng' ext,
      TestNum.test_loop self t inds res sim rng log = Ok (res', sim', rng', log ++ ext)
      ∧ tested_inds ext = inds
      ∧ length (people sim') = length (people sim)
      ∧ (∀ k, series npts res k → series npts res' k)
      ∧ value_at res' "n_diagnoses" t
        = (value_at res "n_diagnoses" t + Z.of_nat (length (counted_inds ext)))%Z.
Proof.
  intros Ht. induction inds as [|i inds IH]; intros res sim rng log Hin Hnd.
  - exists res, sim, rng, []. simpl. rewrite app_nil_r.
    repeat split; auto. lia.
  - simpl. unfold get_person.
    destruct (lookup_lt_is_Some_2 (people sim) i) as [p Hp];
      [apply Hin, list_elem_of_here|].
    rewrite Hp. simpl.
    destruct (test p t (TestNum.sensitivity self) rng) as [p' rng1].
    set (sim1 := set_people sim (<[i:=p']> (people sim))).
    assert (Hlen1 : length (people sim1) = length (people sim))
      by (simpl; apply length_insert).
    assert (Hin1 : ∀ j, j ∈ inds → j < length (people sim1))
      by (intros j Hj; rewrite Hlen1; apply Hin, list_elem_of_further, Hj).
    destruct (diagnosed p').
    + destruct (incr_spec npts "n_diagnoses" t res Hnd Ht) as (res1 & Hi1 & Hs1 & Hv1 & _).
      rewrite Hi1. simpl.
      destruct (IH res1 sim1 rng1
                  ((log ++ [Tested i t (TestNum.sensitivity self)]) ++ [Counted i])
                  Hin1 (Hs1 _ Hnd))
        as (res' & sim' & rng' & ext & Hloop & Hte & Hlen & Hser & Hv).
      exists res', sim', rng', (Tested i t (TestNum.sensitivity self) :: Counted i :: ext).
      rewrite Hloop. split; [rewrite <- !app_assoc; reflexivity|].
      simpl. fold (tested_inds ext) (counted_inds ext).
      split; [rewrite Hte; reflexivity|]. split; [lia|]. split; [auto|].
      rewrite Hv, Hv1. simpl. lia.
    + destruct (IH res sim1 rng1 (log ++ [Tested i t (TestNum.sensitivity self)]) Hin1 Hnd)
        as (res' & sim' & rng' & ext & Hloop & Hte & Hlen & Hser & Hv).
      exists res', sim', rng', (Tested i t (TestNum.sensitivity self) :: ext).
      rewrite Hloop. split; [rewrite <- !app_assoc; reflexivity|].
      simpl. fold (tested_inds ext) (counted_inds ext).
      split; [rewrite Hte; reflexivity|]. split; [lia|]. split; [auto|].
      rewrite Hv. reflexivity.
Qed.



End test_num.




(** ** Serialization *)

(** The claim C8 as it is stated fails for the constructors that take [npts]:
    the number of timesteps is used for the length of the series and is not
    kept as an attribute, so the mapping has no entry for it. *)
Lemma to_json_lacks_npts :
  ¬ (∀ f, f ∈ TestNum_parameters →
          is_Some (to_json (TestNum.init 3 [Tests 2; Tests 2; Tests 2] 100 1 1) !! f)).
Proof.
  intros Hall. specialize (Hall "npts" ltac:(set_solver)).
  destruct Hall as [v Hv]. vm_compute in Hv. discriminate.
Qed.

(** C8, amended.  The mapping returned by [to_json] has an entry for every
    attribute of the instance, which covers every parameter of the
    constructor except [npts], and an entry [InterventionType] holding the
    name of the class; the three names differ.  There is no entry [npts]. *)
Theorem to_json_entries :
  (∀ (d : arg Z) (c : arg Q) (self : ChangeBeta.t),
     ChangeBeta.init d c = Ok self →
     to_json self !! "days" = Some (PIntArray (promotetoarray d))
     ∧ to_json self !! "changes" = Some (PFloatArray (promotetoarray c))
     ∧ to_json self !! "InterventionType" = Some (PStr "ChangeBeta")
     ∧ (∀ f, f ∈ ChangeBeta_parameters → is_Some (to_json self !! f)))
  ∧ (∀ npts daily sy tr se,
       let self := TestNum.init npts daily sy tr se in
       to_json self !! "daily_tests" = Some (PList daily)
       ∧ to_json self !! "sympt_test" = Some (PFloat sy)
       ∧ to_json self !! "trace_test" = Some (PFloat tr)
       ∧ to_json self !! "sensitivity" = Some (PFloat se)
       ∧ to_json self !! "InterventionType" = Some (PStr "TestNum")
       ∧ to_json self !! "npts" = None
       ∧ (∀ f, f ∈ TestNum_parameters → f ≠ "npts" → is_Some (to_json self !! f)))
  ∧ (∀ npts sp ap tp se,
       let self := TestProp.init npts sp ap tp se in
       to_json self !! "symptomatic_prob" = Some (PFloat sp)
       ∧ to_json self !! "asymptomatic_prob" = Some (PFloat ap)
       ∧ to_json self !! "trace_prob" = Some (PFloat tp)
       ∧ to_json self !! "test_sensitivity" = Some (PFloat se)
       ∧ to_json self !! "InterventionType" = Some (PStr "TestProp")
       ∧ to_json self !! "npts" = None
       ∧ (∀ f, f ∈ TestProp_parameters → f ≠ "npts" → is_Some (to_json self !! f)))
  ∧ (@class_name ChangeBeta.t _ ≠ @class_name TestNum.t _
     ∧ @class_name ChangeBeta.t _ ≠ @class_name TestProp.t _
     ∧ @class_name TestNum.t _ ≠ @class_name TestProp.t _).
Proof.
  split; [|split; [|split]].
  - intros d c self Hinit. apply ChangeBeta_init_inv in Hinit as [_ ->].
    split; [reflexivity|]. split; [reflexivity|]. split; [reflexivity|].
    intros f Hf. unfold ChangeBeta_parameters in Hf.
    repeat (apply elem_of_cons in Hf as [->|Hf]); [eexists; reflexivity..|].
    apply elem_of_nil in Hf. contradiction.
  - intros npts daily sy tr se self.
    repeat (split; [reflexivity|]).
    intros f Hf Hne. unfold TestNum_parameters in Hf.
    repeat (apply elem_of_cons in Hf as [->|Hf]); [contradiction|eexists; reflexivity..|].
    apply elem_of_nil in Hf. contradiction.
  - intros npts sp ap tp se self.
    repeat (split; [reflexivity|]).
    intros f Hf Hne. unfold TestProp_parameters in Hf.
    repeat (apply elem_of_cons in Hf as [->|Hf]); [contradiction|eexists; reflexivity..|].
    apply elem_of_nil in Hf. contradiction.
  - repeat split; discriminate.
Qed.

Lemma to_json_entries_witness :
  to_json (ChangeBeta.mk ∅ [14; 28]%Z [7 # 10; 1]%Q None) !! "days"
  = Some (PIntArray [14; 28]%Z)
  ∧ is_Some (to_json (TestNum.init 3 [Tests 2] 100 1 1) !! "sensitivity").
Proof.
  split.
  - apply (proj1 to_json_entries (Seq [14; 28]%Z) (Seq [7 # 10; 1]%Q)). reflexivity.
  - apply (proj1 (proj2 to_json_entries) 3 [Tests 2] 100%Q 1%Q 1%Q).
    + set_solver.
    + discriminate.
Defined.

(** C9 fails on the code.  [TestProp] inherits [to_json]: the mapping holds
    the set of scheduled tests under [scheduled_tests], which the JSON
    encoder refuses, so the mapping is not a serializable snapshot. *)
Theorem TestProp_to_json_not_serializable (self : TestProp.t) :
  to_json self !! "scheduled_tests" = Some (PSet (TestProp.scheduled_tests self))
  ∧ json_serializable (PSet (TestProp.scheduled_tests self)) = false
  ∧ ¬ json_compatible (to_json self).
Proof.
  assert (Hset : to_json self !! "scheduled_tests"
                 = Some (PSet (TestProp.scheduled_tests self))) by reflexivity.
  split; [exact Hset|]. split; [reflexivity|].
  intros Hall. specialize (Hall _ _ Hset). discriminate.
Qed.

Lemma finalize_cumulative_series_witness :
  ∃ self' sim' cd,
    TestNum.finalize
      (TestNum.mk (<["cum_diagnoses" := new_Result "Cumulative number diagnosed" 3]>
                   (<["n_diagnoses" := mkResult "Number diagnosed" [1; 0; 2]%Z]> ∅))
                  [Tests 2; Tests 2; Tests 2] 100 1 1)
      Toy.sick_and_healthy = Ok (self', sim')
    ∧ sim_results sim' !! "cum_diagnoses" = Some cd
    ∧ values cd !! 2 = Some 3%Z.
Proof.
  destruct (proj1 (finalize_cumulative_series 3 Toy.sick_and_healthy)
              (TestNum.mk (<["cum_diagnoses" := new_Result "Cumulative number diagnosed" 3]>
                           (<["n_diagnoses" := mkResult "Number diagnosed" [1; 0; 2]%Z]> ∅))
                          [Tests 2; Tests 2; Tests 2] 100 1 1))
    as (self' & sim' & nd & cd & Hfin & Hnd & _ & Hcd & Hsum & Hmerged).
  - eexists. split; reflexivity.
  - eexists. split; reflexivity.
  - exists self', sim', cd. split; [exact Hfin|]. split; [apply Hmerged, Hcd|].
    rewrite (Hsum 2) by lia. vm_compute in Hnd. injection Hnd as <-. reflexivity.
Defined.


(** * Further properties of the code *)

(** ** ChangeBeta: repeated calls, and what is left alone *)

Section change_beta_more.
Context `{World}.

(** X1.  Calling [ChangeBeta.apply] a second time on the same day changes
    nothing: the second call returns the instance and the simulation the first
    call returned, so that repeated calls do not compound the change. *)
Theorem ChangeBeta_apply_same_day_again (self : ChangeBeta.t) (sim : Sim) (t : nat) :
  length (days self) = length (changes self) →
  ∃ self1 sim1,
    ChangeBeta.apply self sim t = Ok (self1, sim1)
    ∧ ChangeBeta.apply self1 sim1 t = Ok (self1, sim1).
Proof.
  intros Hlen.
  pose proof (ChangeBeta_apply_step self sim t Hlen) as H1. simpl in H1.
  eexists _, _. split; [exact H1|].
  match goal with |- ChangeBeta.apply ?s ?m t = _ =>
    pose proof (ChangeBeta_apply_step s m t Hlen) as H2
  end.
  simpl in H2. rewrite H2. f_equal. f_equal.
  destruct (ChangeBeta.scheduled (days self) (changes self) t); reflexivity.
Qed.

(** X3.  Whenever [ChangeBeta.apply] returns, it has left the people and the
    results of the simulation, and the schedule and the (empty) results of
    the instance, as they were, and the instance holds a baseline. *)
Theorem ChangeBeta_apply_frame (self self' : ChangeBeta.t) (sim sim' : Sim) (t : nat) :
  ChangeBeta.apply self sim t = Ok (self', sim') →
  people sim' = people sim
  ∧ sim_results sim' = sim_results sim
  ∧ days self' = days self
  ∧ changes self' = changes self
  ∧ ChangeBeta.results self' = ChangeBeta.results self
  ∧ orig_beta self' = Some (default (beta sim) (orig_beta self)).
Proof.
  unfold ChangeBeta.apply. simpl.
  assert (Horig : match orig_beta self with Some b => b | None => beta sim end
                  = default (beta sim) (orig_beta self))
    by (destruct (orig_beta self); reflexivity).
  rewrite Horig.
  destruct (negb (length (findinds (days self) (Z.of_nat t)) =? 0)).
  - destruct (ChangeBeta.multiply (changes self) (findinds (days self) (Z.of_nat t))
                (default (beta sim) (orig_beta self))) as [b|e]; simpl; [|discriminate].
    intros Heq. injection Heq as <- <-. repeat split; reflexivity.
  - intros Heq. injection Heq as <- <-. repeat split; reflexivity.
Qed.
End change_beta_more.

Lemma ChangeBeta_apply_same_day_again_witness :
  ∃ self1 sim1,
    ChangeBeta.apply (ChangeBeta.mk ∅ [14; 28; 14]%Z [7 # 10; 1; 1 # 2]%Q None)
                     (Toy.sim_of (1 # 2) []) 14 = Ok (self1, sim1)
    ∧ ChangeBeta.apply self1 sim1 14 = Ok (self1, sim1).
Proof.
  apply (ChangeBeta_apply_same_day_again
           (ChangeBeta.mk ∅ [14; 28; 14]%Z [7 # 10; 1; 1 # 2]%Q None)
           (Toy.sim_of (1 # 2) []) 14).
  reflexivity.
Defined.

Lemma ChangeBeta_apply_frame_witness :
  ∃ self' sim',
    ChangeBeta.apply (ChangeBeta.mk ∅ [14; 28]%Z [7 # 10; 1]%Q None)
                     (Toy.sim_of (1 # 2) [Toy.healthy]) 14 = Ok (self', sim')
    ∧ people sim' = [Toy.healthy] ∧ orig_beta self' = Some (1 # 2)%Q.
Proof.
  eexists _, _. split; [reflexivity|].
  destruct (ChangeBeta_apply_frame (ChangeBeta.mk ∅ [14; 28]%Z [7 # 10; 1]%Q None) _
              (Toy.sim_of (1 # 2) [Toy.healthy]) _ 14 eq_refl) as (Hp & _ & _ & _ & _ & Ho).
  split; [exact Hp|exact Ho].
Defined.

(** ** finalize: calling it again, and what it does to the results of the
    simulation *)

Lemma set_cumulative_inv (dst src : string) (res res' : gmap string Result) :
  set_cumulative dst src res = Ok res' →
  ∃ rs rd,
    res !! src = Some rs ∧ res !! dst = Some rd
    ∧ res' = <[dst := {| name := name rd; values := cumsum (values rs) |}]> res.
Proof.
  unfold set_cumulative. intros Hset.
  destruct (res !! src) as [rs|]; [|discriminate].
  destruct (res !! dst) as [rd|]; [|discriminate].
  injection Hset as <-. eauto.
Qed.

Lemma set_cumulative_fixed (dst src : string) (res : gmap string Result) (rs rd : Result) :
  res !! src = Some rs →
  res !! dst = Some rd →
  values rd = cumsum (values rs) →
  set_cumulative dst src res = Ok res.
Proof.
  intros Hs Hd Hv. unfold set_cumulative. rewrite Hs, Hd. f_equal.
  apply insert_id. rewrite Hd. f_equal. destruct rd as [n v]. simpl in *. congruence.
Qed.

Section finalize_more.
Context `{World}.

(** X4.  Calling [finalize] again is harmless: a second call of
    [TestNum.finalize], or of [TestProp.finalize], on what the first call
    returned returns the same instance and the same simulation. *)
Theorem finalize_again :
  (∀ (self self1 : TestNum.t) (sim sim1 : Sim),
     TestNum.finalize self sim = Ok (self1, sim1) →
     TestNum.finalize self1 sim1 = Ok (self1, sim1))
  ∧ (∀ (self self1 : TestProp.t) (sim sim1 : Sim),
     TestProp.finalize self sim = Ok (self1, sim1) →
     TestProp.finalize self1 sim1 = Ok (self1, sim1)).
Proof.
  split.
  - intros self self1 sim sim1. unfold TestNum.finalize.
    destruct (set_cumulative "cum_diagnoses" "n_diagnoses" (TestNum.results self))
      as [res1|e] eqn:Hset; simpl; [|discriminate].
    intros Heq. injection Heq as <- <-. simpl.
    apply set_cumulative_inv in Hset as (rs & rd & Hs & Hd & ->).
    rewrite (set_cumulative_fixed "cum_diagnoses" "n_diagnoses" _ rs
               {| name := name rd; values := cumsum (values rs) |});
      [|rewrite lookup_insert_ne by done; exact Hs|apply lookup_insert_eq|reflexivity].
    simpl. unfold update_results, TestNum.set_results. simpl.
    rewrite (assoc_L (∪)), (idemp_L (∪)). reflexivity.
  - intros self self1 sim sim1. unfold TestProp.finalize.
    destruct (set_cumulative "cum_tested" "n_tested" (TestProp.results self))
      as [res1|e] eqn:Hset1; simpl; [|discriminate].
    destruct (set_cumulative "cum_diagnoses" "n_diagnoses" res1)
      as [res2|e] eqn:Hset2; simpl; [|discriminate].
    intros Heq. injection Heq as <- <-. simpl.
    apply set_cumulative_inv in Hset1 as (rs1 & rd1 & Hs1 & Hd1 & ->).
    apply set_cumulative_inv in Hset2 as (rs2 & rd2 & Hs2 & Hd2 & ->).
    rewrite (set_cumulative_fixed "cum_tested" "n_tested" _ rs1
               {| name := name rd1; values := cumsum (values rs1) |});
      [|rewrite !lookup_insert_ne by done; exact Hs1
       |rewrite lookup_insert_ne by done; apply lookup_insert_eq|reflexivity].
    simpl.
    rewrite (set_cumulative_fixed "cum_diagnoses" "n_diagnoses" _ rs2
               {| name := name rd2; values := cumsum (values rs2) |});
      [|rewrite lookup_insert_ne by done; exact Hs2|apply lookup_insert_eq|reflexivity].
    simpl. unfold update_results, TestProp.set_results. simpl.
    rewrite (assoc_L (∪)), (idemp_L (∪)). reflexivity.
Qed.

(** What [finalize] does to the simulation, for any dictionary of results
    merged into it. *)
Lemma update_results_lookup (sim : Sim) (res : gmap string Result) (key : string) :
  sim_results (update_results sim res) !! key
  = match res !! key with
    | Some r => Some r
    | None => sim_results sim !! key
    end.
Proof.
  simpl. rewrite lookup_union. destruct (res !! key), (sim_results sim !! key); reflexivity.
Qed.

Lemma TestNum_finalize_inv (self self' : TestNum.t) (sim sim' : Sim) :
  TestNum.finalize self sim = Ok (self', sim') →
  sim' = update_results sim (TestNum.results self')
  ∧ TestNum.results self' !! "n_diagnoses" = TestNum.results self !! "n_diagnoses"
  ∧ is_Some (TestNum.results self' !! "n_diagnoses")
  ∧ is_Some (TestNum.results self' !! "cum_diagnoses")
  ∧ (∀ key, key ≠ "cum_diagnoses" →
            TestNum.results self' !! key = TestNum.results self !! key).
Proof.
  unfold TestNum.finalize.
  destruct (set_cumulative "cum_diagnoses" "n_diagnoses" (TestNum.results self))
    as [res1|e] eqn:Hset; simpl; [|discriminate].
  intros Heq. injection Heq as <- <-. simpl.
  apply set_cumulative_inv in Hset as (rs & rd & Hs & Hd & ->).
  split; [reflexivity|]. split; [apply lookup_insert_ne; done|].
  split; [rewrite lookup_insert_ne by done; eauto|].
  split; [rewrite lookup_insert_eq; eauto|].
  intros key Hkey. apply lookup_insert_ne. congruence.
Qed.

Lemma TestProp_finalize_inv (self self' : TestProp.t) (sim sim' : Sim) :
  TestProp.finalize self sim = Ok (self', sim') →
  sim' = update_results sim (TestProp.results self')
  ∧ (∀ key, key ∈ ["n_tested"; "n_diagnoses"; "cum_tested"; "cum_diagnoses"] →
            is_Some (TestProp.results self' !! key))
  ∧ (∀ key, key ≠ "cum_tested" → key ≠ "cum_diagnoses" →
            TestProp.results self' !! key = TestProp.results self !! key).
Proof.
  unfold TestProp.finalize.
  destruct (set_cumulative "cum_tested" "n_tested" (TestProp.results self))
    as [res1|e] eqn:Hset1; simpl; [|discriminate].
  destruct (set_cumulative "cum_diagnoses" "n_diagnoses" res1)
    as [res2|e] eqn:Hset2; simpl; [|discriminate].
  intros Heq. injection Heq as <- <-. simpl.
  apply set_cumulative_inv in Hset1 as (rs1 & rd1 & Hs1 & Hd1 & ->).
  apply set_cumulative_inv in Hset2 as (rs2 & rd2 & Hs2 & Hd2 & ->).
  split; [reflexivity|]. split.
  - intros key Hkey.
    repeat (apply elem_of_cons in Hkey as [->|Hkey]);
      [..|apply elem_of_nil in Hkey; contradiction].
    + rewrite !lookup_insert_ne by done. eauto.
    + rewrite lookup_insert_ne by done. eauto.
    + rewrite lookup_insert_ne by done. rewrite lookup_insert_eq. eauto.
    + rewrite lookup_insert_eq. eauto.
  - intros key Hk1 Hk2. rewrite !lookup_insert_ne by congruence. reflexivity.
Qed.

(** X5.  [finalize] changes the simulation only in its results: beta and the
    people are as before, every series of the instance is then in the results
    of the simulation under its own name, replacing a series that was there
    under this name, and every other entry of the results of the simulation
    is kept. *)
Theorem finalize_merge :
  (∀ (self self' : TestNum.t) (sim sim' : Sim),
     TestNum.finalize self sim = Ok (self', sim') →
     beta sim' = beta sim ∧ people sim' = people sim
     ∧ (∀ key r, TestNum.results self' !! key = Some r → sim_results sim' !! key = Some r)
     ∧ (∀ key, TestNum.results self' !! key = None →
               sim_results sim' !! key = sim_results sim !! key))
  ∧ (∀ (self self' : TestProp.t) (sim sim' : Sim),
     TestProp.finalize self sim = Ok (self', sim') →
     beta sim' = beta sim ∧ people sim' = people sim
     ∧ (∀ key r, TestProp.results self' !! key = Some r → sim_results sim' !! key = Some r)
     ∧ (∀ key, TestProp.results self' !! key = None →
               sim_results sim' !! key = sim_results sim !! key)).
Proof.
  split.
  - intros self self' sim sim' Hfin.
    apply TestNum_finalize_inv in Hfin as (-> & _).
    split; [reflexivity|]. split; [reflexivity|]. split.
    + intros key r Hr. rewrite update_results_lookup, Hr. reflexivity.
    + intros key Hr. rewrite update_results_lookup, Hr. reflexivity.
  - intros self self' sim sim' Hfin.
    apply TestProp_finalize_inv in Hfin as (-> & _).
    split; [reflexivity|]. split; [reflexivity|]. split.
    + intros key r Hr. rewrite update_results_lookup, Hr. reflexivity.
    + intros key Hr. rewrite update_results_lookup, Hr. reflexivity.
Qed.

(** X6.  The two testing policies use the same names for their diagnoses.
    When a [TestNum] and then a [TestProp] instance are finalized on one
    simulation, the results of the simulation hold under [n_diagnoses] and
    [cum_diagnoses] the series of the [TestProp] instance: those of the
    [TestNum] instance are replaced. *)
Theorem finalize_last_policy_wins
    (tn tn' : TestNum.t) (tp tp' : TestProp.t) (sim sim1 sim2 : Sim) :
  TestNum.finalize tn sim = Ok (tn', sim1) →
  TestProp.finalize tp sim1 = Ok (tp', sim2) →
  sim_results sim1 !! "n_diagnoses" = TestNum.results tn !! "n_diagnoses"
  ∧ sim_results sim2 !! "n_diagnoses" = TestProp.results tp !! "n_diagnoses"
  ∧ sim_results sim2 !! "cum_diagnoses" = TestProp.results tp' !! "cum_diagnoses"
  ∧ is_Some (sim_results sim2 !! "cum_diagnoses").
Proof.
  intros Hn Hp.
  apply TestNum_finalize_inv in Hn as (-> & Hnd & [nd Hnd'] & _).
  apply TestProp_finalize_inv in Hp as (-> & Hkeys & Hother).
  destruct (Hkeys "n_diagnoses" ltac:(set_solver)) as [pd Hpd].
  destruct (Hkeys "cum_diagnoses" ltac:(set_solver)) as [pc Hpc].
  rewrite !update_results_lookup. rewrite Hnd', Hpd, Hpc.
  split; [congruence|]. split; [|split; [reflexivity|eauto]].
  rewrite <- Hpd. apply Hother; done.
Qed.
End finalize_more.

(** ** TestProp: what one call does, whenever it returns *)

Lemma incr_inv (key : string) (t : nat) (res res' : gmap string Result) :
  incr key t res = Ok res' →
  ∃ r v,
    res !! key = Some r ∧ values r !! t = Some v
    ∧ res' = <[key := {| name := name r; values := <[t := (v + 1)%Z]> (values r) |}]> res.
Proof.
  unfold incr. intros Hincr.
  destruct (res !! key) as [r|] eqn:Hr; [|discriminate].
  destruct (values r !! t) as [v|] eqn:Hv; [|discriminate].
  injection Hincr as <-. exists r, v. auto.
Qed.

Lemma incr_value_at (key : string) (t : nat) (res res' : gmap string Result) :
  incr key t res = Ok res' →
  (∀ t', value_at res' key t'
         = (value_at res key t' + if decide (t' = t) then 1 else 0)%Z)
  ∧ (∀ k, k ≠ key → res' !! k = res !! k)
  ∧ (∀ npts k, series npts res k → series npts res' k).
Proof.
  intros Hincr. apply incr_inv in Hincr as (r & v & Hr & Hv & ->).
  assert (Ht : t < length (values r)) by (eapply lookup_lt_Some; exact Hv).
  split; [|split].
  - intros t'. unfold value_at. rewrite lookup_insert_eq, Hr. simpl.
    destruct (decide (t' = t)) as [->|Hne].
    + rewrite list_lookup_insert_eq by exact Ht. rewrite Hv. reflexivity.
    + rewrite list_lookup_insert_ne by congruence.
      destruct (values r !! t'); simpl; lia.
  - intros k Hk. apply lookup_insert_ne. congruence.
  - intros npts k (r' & Hr' & Hlen). unfold series.
    destruct (decide (key = k)) as [->|Hne].
    + rewrite lookup_insert_eq. eexists. split; [reflexivity|].
      simpl. rewrite length_insert. congruence.
    + rewrite lookup_insert_ne by exact Hne. eauto.
Qed.

Lemma counters_grow_refl (t : nat) (res : gmap string Result) :
  counters_grow t res res 0 0.
Proof.
  unfold counters_grow. repeat split; auto; intros t'; destruct (decide (t' = t)); simpl; lia.
Qed.

Lemma counters_grow_trans (t : nat) (res1 res2 res3 : gmap string Result) (a b c d : nat) :
  counters_grow t res1 res2 a b → counters_grow t res2 res3 c d →
  counters_grow t res1 res3 (a + c) (b + d).
Proof.
  intros (Ht1 & Hd1 & Ho1 & Hs1) (Ht2 & Hd2 & Ho2 & Hs2). unfold counters_grow.
  split; [|split; [|split]].
  - intros t'. rewrite Ht2, Ht1. destruct (decide (t' = t)); lia.
  - intros t'. rewrite Hd2, Hd1. destruct (decide (t' = t)); lia.
  - intros key Hk1 Hk2. rewrite Ho2, Ho1 by assumption. reflexivity.
  - intros npts key Hk. apply Hs2, Hs1, Hk.
Qed.

Lemma counters_grow_tested (t : nat) (res res' : gmap string Result) :
  incr "n_tested" t res = Ok res' → counters_grow t res res' 1 0.
Proof.
  intros Hincr. apply incr_value_at in Hincr as (Hv & Ho & Hs).
  unfold counters_grow. split; [|split; [|split]].
  - intros t'. rewrite Hv. destruct (decide (t' = t)); reflexivity.
  - intros t'. unfold value_at. rewrite Ho by done.
    destruct (decide (t' = t)); simpl; lia.
  - intros key Hk1 _. apply Ho. exact Hk1.
  - exact Hs.
Qed.

Lemma counters_grow_diagnosed (t : nat) (res res' : gmap string Result) :
  incr "n_diagnoses" t res = Ok res' → counters_grow t res res' 0 1.
Proof.
  intros Hincr. apply incr_value_at in Hincr as (Hv & Ho & Hs).
  unfold counters_grow. split; [|split; [|split]].
  - intros t'. unfold value_at. rewrite Ho by done.
    destruct (decide (t' = t)); simpl; lia.
  - intros t'. rewrite Hv. destruct (decide (t' = t)); reflexivity.
  - intros key _ Hk2. apply Ho. exact Hk2.
  - exact Hs.
Qed.

Section test_prop_more.
Context `{World}.
Implicit Types (self : TestProp.t) (st : TestProp.loop_state) (p : Person).

Lemma trace_shape self p (idxs : list nat) (new : gset nat) (rng : RNG) (log : list event) :
  ∃ sch rng',
    TestProp.trace self p idxs new rng log
    = (list_to_set sch ∪ new, rng', log ++ (Scheduled <$> sch))
    ∧ sch `sublist_of` idxs
    ∧ (truthy (TestProp.trace_prob self) = false → sch = []).
Proof.
  revert new rng log. induction idxs as [|idx idxs IH]; intros new rng log.
  - exists [], rng. simpl. rewrite app_nil_r.
    split; [f_equal; f_equal; set_solver|]. split; [constructor|reflexivity].
  - simpl.
    destruct (if diagnosed p && truthy (TestProp.trace_prob self)
              then bt (TestProp.trace_prob self) rng else (false, rng))
      as [hit rng1] eqn:Hdraw.
    destruct hit.
    + destruct (IH ({[idx]} ∪ new) rng1 (log ++ [Scheduled idx])) as (sch & rng' & Htr & Hsub & Hz).
      exists (idx :: sch), rng'. rewrite Htr. simpl. rewrite <- app_assoc. simpl.
      split; [f_equal; f_equal; set_solver|]. split; [apply sublist_skip; exact Hsub|].
      intros Htp. rewrite Htp, andb_false_r in Hdraw. discriminate.
    + destruct (IH new rng1 log) as (sch & rng' & Htr & Hsub & Hz).
      exists sch, rng'. rewrite Htr. split; [reflexivity|].
      split; [apply sublist_cons; exact Hsub|exact Hz].
Qed.

(** The three ways the body of the loop can end for the person at [i]. *)
Lemma visit_inv self t i p st p' st' :
  TestProp.visit self t i p st = Ok (p', st') →
  ∃ ext,
    TestProp.l_log st' = TestProp.l_log st ++ ext
    ∧ ((ext = [] ∧ p' = p
        ∧ TestProp.l_results st' = TestProp.l_results st
        ∧ TestProp.l_new_scheduled_tests st' = TestProp.l_new_scheduled_tests st)
       ∨ (diagnosed p' = false
          ∧ ext = [Tested i t (TestProp.test_sensitivity self)]
          ∧ incr "n_tested" t (TestProp.l_results st) = Ok (TestProp.l_results st')
          ∧ TestProp.l_new_scheduled_tests st' = TestProp.l_new_scheduled_tests st)
       ∨ (diagnosed p' = true
          ∧ ∃ sch res1,
              ext = Tested i t (TestProp.test_sensitivity self) :: Counted i
                      :: (Scheduled <$> sch)
              ∧ incr "n_tested" t (TestProp.l_results st) = Ok res1
              ∧ incr "n_diagnoses" t res1 = Ok (TestProp.l_results st')
              ∧ TestProp.l_new_scheduled_tests st'
                = list_to_set sch ∪ TestProp.l_new_scheduled_tests st
              ∧ sch `sublist_of` contact_inds p'
              ∧ (truthy (TestProp.trace_prob self) = false → sch = []))).
Proof.
  unfold TestProp.visit.
  destruct (TestProp.selected self i p (TestProp.l_rng st)) as [sel rng1].
  destruct sel.
  - destruct (incr "n_tested" t (TestProp.l_results st)) as [res1|e] eqn:Hi1;
      simpl; [|discriminate].
    destruct (test p t (TestProp.test_sensitivity self) rng1) as [p1 rng2].
    destruct (diagnosed p1) eqn:Hdiag.
    + destruct (incr "n_diagnoses" t res1) as [res2|e] eqn:Hi2; simpl; [|discriminate].
      destruct (trace_shape self p1 (contact_inds p1) (TestProp.l_new_scheduled_tests st) rng2
                  ((TestProp.l_log st ++ [Tested i t (TestProp.test_sensitivity self)])
                     ++ [Counted i]))
        as (sch & rng3 & Htr & Hsub & Hz).
      rewrite Htr. intros Heq. injection Heq as <- <-. simpl.
      eexists. split; [rewrite <- !app_assoc; reflexivity|].
      right. right. split; [exact Hdiag|]. exists sch, res1. repeat split; auto.
    + intros Heq. injection Heq as <- <-. simpl.
      eexists. split; [reflexivity|]. right. left. repeat split; auto.
  - intros Heq. injection Heq as <- <-. simpl.
    exists []. rewrite app_nil_r. split; [reflexivity|]. left. repeat split; auto.
Qed.

Lemma inds_of_Scheduled (sch : list nat) :
  tested_inds (Scheduled <$> sch) = []
  ∧ counted_inds (Scheduled <$> sch) = []
  ∧ scheduled_inds (Scheduled <$> sch) = sch.
Proof.
  induction sch as [|x sch (IH1 & IH2 & IH3)]; [auto|].
  split; [exact IH1|]. split; [exact IH2|].
  change (x :: scheduled_inds (Scheduled <$> sch) = x :: sch). f_equal. exact IH3.
Qed.

Lemma not_before_seq (k n : nat) (l : list nat) :
  l `sublist_of` seq (S k) n → k ∉ l.
Proof.
  intros Hsub Hin. apply (elem_of_sublist _ _ _ Hin) in Hsub.
  apply elem_of_seq in Hsub. lia.
Qed.

Lemma loop_inv self t (ps : list Person) :
  ∀ k st ps' st',
    TestProp.loop self t k ps st = Ok (ps', st') →
    ∃ ext,
      TestProp.l_log st' = TestProp.l_log st ++ ext
      ∧ call_facts self t k ps ps' (TestProp.l_results st) (TestProp.l_results st')
          (TestProp.l_new_scheduled_tests st) (TestProp.l_new_scheduled_tests st') ext.
Proof.
  induction ps as [|p ps IH]; intros k st ps' st' Hloop.
  - simpl in Hloop. injection Hloop as <- <-. exists []. rewrite app_nil_r.
    split; [reflexivity|]. unfold call_facts. simpl.
    split; [reflexivity|]. split; [apply counters_grow_refl|].
    split; [set_solver|]. split; [constructor|]. split; [constructor|].
    split; [reflexivity|]. split; [intros j Hj; apply elem_of_nil in Hj; contradiction|].
    split; [intros j Hj; apply elem_of_nil in Hj; contradiction|reflexivity].
  - simpl in Hloop.
    destruct (TestProp.visit self t k p st) as [[p0 st1]|e] eqn:Hvisit; simpl in Hloop;
      [|discriminate].
    destruct (TestProp.loop self t (S k) ps st1) as [[ps1 st2]|e] eqn:Hrest; simpl in Hloop;
      [|discriminate].
    injection Hloop as <- <-.
    destruct (IH _ _ _ _ Hrest)
      as (e2 & Hlog2 & Hlen & Hgrow & Hnew & Hct & Hts & Hsame & Hdiag & Hsched & Hoff).
    pose proof (not_before_seq _ _ _ Hts) as Hk.
    assert (Hkc : k ∉ counted_inds e2)
      by (intros Hin; apply Hk; eapply elem_of_sublist; eassumption).
    assert (Hshift : ∀ j, k + S j = S k + j) by (intros; lia).
    apply visit_inv in Hvisit
      as (e1 & Hlog1 & [(-> & -> & Hres & Hnew1)
                       |[(Hd0 & -> & Hincr & Hnew1)
                        |(Hd0 & sch & res1 & -> & Hi1 & Hi2 & Hnew1 & Hsub & Hz)]]).
    + exists e2. split; [rewrite Hlog2, Hlog1, app_nil_r; reflexivity|].
      rewrite Hres, Hnew1 in *. unfold call_facts. simpl.
      split; [rewrite Hlen; reflexivity|]. split; [exact Hgrow|]. split; [exact Hnew|].
      split; [exact Hct|]. split; [apply sublist_cons; exact Hts|]. split; [|split; [|split]].
      * intros [|j] Hj; [reflexivity|]. simpl. apply Hsame. rewrite <- Hshift. exact Hj.
      * intros [|j] Hj; [rewrite Nat.add_0_r in Hj; contradiction|].
        simpl. apply Hdiag. rewrite <- Hshift. exact Hj.
      * intros idx Hidx. destruct (Hsched idx Hidx) as (j & p' & Hp' & Hj & Hc).
        exists (S j), p'. rewrite Hshift. auto.
      * exact Hoff.
    + exists (Tested k t (TestProp.test_sensitivity self) :: e2).
      split; [rewrite Hlog2, Hlog1, <- app_assoc; reflexivity|].
      rewrite Hnew1 in *. unfold call_facts. simpl.
      fold (tested_inds e2) (counted_inds e2) (scheduled_inds e2).
      split; [rewrite Hlen; reflexivity|].
      split; [apply (counters_grow_trans t _ _ _ 1 0 _ _ (counters_grow_tested _ _ _ Hincr) Hgrow)|].
      split; [exact Hnew|]. split; [apply sublist_cons; exact Hct|].
      split; [apply sublist_skip; exact Hts|]. split; [|split; [|split]].
      * intros [|j] Hj.
        -- exfalso. apply Hj. rewrite Nat.add_0_r. apply list_elem_of_here.
        -- simpl. apply Hsame. rewrite <- Hshift. intros Hin. apply Hj.
           apply list_elem_of_further. exact Hin.
      * intros [|j] Hj; [rewrite Nat.add_0_r in Hj; contradiction|].
        simpl. apply Hdiag. rewrite <- Hshift. exact Hj.
      * intros idx Hidx. destruct (Hsched idx Hidx) as (j & p' & Hp' & Hj & Hc).
        exists (S j), p'. rewrite Hshift. auto.
      * exact Hoff.
    + destruct (inds_of_Scheduled sch) as (Hs1 & Hs2 & Hs3).
      exists (Tested k t (TestProp.test_sensitivity self) :: Counted k
                :: (Scheduled <$> sch) ++ e2).
      split; [rewrite Hlog2, Hlog1, <- app_assoc; reflexivity|].
      unfold call_facts. simpl.
      fold (tested_inds ((Scheduled <$> sch) ++ e2))
           (counted_inds ((Scheduled <$> sch) ++ e2))
           (scheduled_inds ((Scheduled <$> sch) ++ e2)).
      rewrite tested_inds_app, counted_inds_app, scheduled_inds_app, Hs1, Hs2, Hs3. simpl.
      split; [rewrite Hlen; reflexivity|].
      split.
      { apply (counters_grow_trans t _ (TestProp.l_results st1) _ 1 1 _ _); [|exact Hgrow].
        apply (counters_grow_trans t _ res1 _ 1 0 0 1);
          [apply counters_grow_tested|apply counters_grow_diagnosed]; assumption. }
      split; [rewrite Hnew, Hnew1, list_to_set_app_L; set_solver|].
      split; [apply sublist_skip; exact Hct|].
      split; [apply sublist_skip; exact Hts|]. split; [|split; [|split]].
      * intros [|j] Hj.
        -- exfalso. apply Hj. rewrite Nat.add_0_r. apply list_elem_of_here.
        -- simpl. apply Hsame. rewrite <- Hshift. intros Hin. apply Hj.
           apply list_elem_of_further. exact Hin.
      * intros [|j] Hj; [simpl; eauto|].
        simpl. apply Hdiag. rewrite <- Hshift.
        apply elem_of_cons in Hj as [Hj|Hj]; [lia|exact Hj].
      * intros idx Hidx. apply elem_of_app in Hidx as [Hidx|Hidx].
        -- exists 0, p0. rewrite Nat.add_0_r. split; [reflexivity|].
           split; [apply list_elem_of_here|]. eapply elem_of_sublist; eassumption.
        -- destruct (Hsched idx Hidx) as (j & p' & Hp' & Hj & Hc).
           exists (S j), p'. rewrite Hshift. split; [exact Hp'|].
           split; [apply list_elem_of_further; exact Hj|exact Hc].
      * intros Htp. rewrite (Hz Htp), (Hoff Htp). reflexivity.
Qed.

Lemma TestProp_apply_inv self (sim : Sim) t (rng : RNG) self' (sim' : Sim) (rng' : RNG) log :
  TestProp.apply self sim t rng = Ok (self', sim', rng', log) →
  call_facts self t 0 (people sim) (people sim') (TestProp.results self)
    (TestProp.results self') ∅ (TestProp.scheduled_tests self') log
  ∧ beta sim' = beta sim
  ∧ sim_results sim' = sim_results sim
  ∧ TestProp.symptomatic_prob self' = TestProp.symptomatic_prob self
  ∧ TestProp.asymptomatic_prob self' = TestProp.asymptomatic_prob self
  ∧ TestProp.trace_prob self' = TestProp.trace_prob self
  ∧ TestProp.test_sensitivity self' = TestProp.test_sensitivity self.
Proof.
  unfold TestProp.apply. intros Happ.
  destruct (TestProp.loop self t 0 (people sim)
              (TestProp.mkLoop (TestProp.results self) ∅ rng []))
    as [[ps' st']|e] eqn:Hloop; simpl in Happ; [|discriminate].
  injection Happ as <- <- <- <-.
  apply loop_inv in Hloop as (ext & Hlog & Hfacts). simpl in Hlog, Hfacts.
  rewrite Hlog. simpl. repeat split; try reflexivity; apply Hfacts.
Qed.

(** X7.  Whenever [TestProp.apply] returns, it has left beta, the results
    of the simulation, the number of people and the four probabilities of the
    instance as they were; a person who was not tested in this call is as
    before; of the series of the instance only slot [t] of [n_tested] and of
    [n_diagnoses] can differ, so that the cumulative series are not written
    before [finalize]. *)
Theorem TestProp_apply_frame
    self (sim : Sim) t (rng : RNG) self' (sim' : Sim) (rng' : RNG) log :
  TestProp.apply self sim t rng = Ok (self', sim', rng', log) →
  beta sim' = beta sim
  ∧ sim_results sim' = sim_results sim
  ∧ length (people sim') = length (people sim)
  ∧ (∀ j, j ∉ tested_inds log → people sim' !! j = people sim !! j)
  ∧ (TestProp.symptomatic_prob self' = TestProp.symptomatic_prob self
     ∧ TestProp.asymptomatic_prob self' = TestProp.asymptomatic_prob self
     ∧ TestProp.trace_prob self' = TestProp.trace_prob self
     ∧ TestProp.test_sensitivity self' = TestProp.test_sensitivity self)
  ∧ (∀ key, key ≠ "n_tested" → key ≠ "n_diagnoses" →
            TestProp.results self' !! key = TestProp.results self !! key)
  ∧ (∀ key t', t' ≠ t →
       value_at (TestProp.results self') key t' = value_at (TestProp.results self) key t').
Proof.
  intros Happ.
  apply TestProp_apply_inv in Happ
    as ((Hlen & (Hnt & Hnd & Hother & _) & _ & _ & _ & Hsame & _) & Hb & Hr & Hc1 & Hc2 & Hc3 & Hc4).
  split; [exact Hb|]. split; [exact Hr|]. split; [exact Hlen|].
  split; [intros j Hj; apply (Hsame j); exact Hj|].
  split; [auto|]. split; [exact Hother|].
  intros key t' Hne.
  destruct (decide (key = "n_tested")) as [->|Hk1].
  { rewrite Hnt. rewrite decide_False by exact Hne. lia. }
  destruct (decide (key = "n_diagnoses")) as [->|Hk2].
  { rewrite Hnd. rewrite decide_False by exact Hne. lia. }
  unfold value_at. rewrite (Hother key Hk1 Hk2). reflexivity.
Qed.

(** X8.  Whenever [TestProp.apply] returns, it has tested each person at
    most once, in index order; the people counted as diagnosed are among the
    people tested and are diagnosed after the call; [n_tested[t]] has grown
    by the number of people tested, which is at most the population, and
    [n_diagnoses[t]] by the number counted, which is at most the number
    tested. *)
Theorem TestProp_apply_counts
    self (sim : Sim) t (rng : RNG) self' (sim' : Sim) (rng' : RNG) log :
  TestProp.apply self sim t rng = Ok (self', sim', rng', log) →
  tested_inds log `sublist_of` seq 0 (length (people sim))
  ∧ NoDup (tested_inds log)
  ∧ counted_inds log `sublist_of` tested_inds log
  ∧ length (counted_inds log) ≤ length (tested_inds log) ≤ length (people sim)
  ∧ value_at (TestProp.results self') "n_tested" t
    = (value_at (TestProp.results self) "n_tested" t
       + Z.of_nat (length (tested_inds log)))%Z
  ∧ value_at (TestProp.results self') "n_diagnoses" t
    = (value_at (TestProp.results self) "n_diagnoses" t
       + Z.of_nat (length (counted_inds log)))%Z
  ∧ (∀ j, j ∈ counted_inds log →
          ∃ p', people sim' !! j = Some p' ∧ diagnosed p' = true).
Proof.
  intros Happ.
  apply TestProp_apply_inv in Happ
    as ((Hlen & (Hnt & Hnd & _) & _ & Hct & Hts & _ & Hdiag & _) & _).
  split; [exact Hts|].
  split; [apply (sublist_NoDup _ _ (NoDup_seq _ _) Hts)|].
  split; [exact Hct|]. split.
  { apply sublist_length in Hct. apply sublist_length in Hts.
    rewrite length_seq in Hts. lia. }
  split; [rewrite Hnt, decide_True by reflexivity; reflexivity|].
  split; [rewrite Hnd, decide_True by reflexivity; reflexivity|].
  intros j Hj. apply (Hdiag j). exact Hj.
Qed.

(** X9.  Whenever [TestProp.apply] returns, every index in the set of
    scheduled tests it leaves is a contact of a person who was tested and
    counted as diagnosed in this call; with a [trace_prob] of zero the set is
    empty. *)
Theorem TestProp_scheduled_are_contacts
    self (sim : Sim) t (rng : RNG) self' (sim' : Sim) (rng' : RNG) log :
  TestProp.apply self sim t rng = Ok (self', sim', rng', log) →
  (∀ idx, idx ∈ TestProp.scheduled_tests self' →
     ∃ j p',
       people sim' !! j = Some p' ∧ diagnosed p' = true
       ∧ Counted j ∈ log ∧ j ∈ tested_inds log
       ∧ idx ∈ contact_inds p')
  ∧ (truthy (TestProp.trace_prob self) = false → TestProp.scheduled_tests self' = ∅).
Proof.
  intros Happ.
  apply TestProp_apply_inv in Happ
    as ((_ & _ & Hnew & Hct & _ & _ & Hdiag & Hsched & Hoff) & _).
  split.
  - intros idx Hidx. rewrite Hnew in Hidx.
    assert (Hin : idx ∈ scheduled_inds log) by set_solver.
    destruct (Hsched idx Hin) as (j & p' & Hp' & Hj & Hc). simpl in Hj.
    destruct (Hdiag j Hj) as (p'' & Hp'' & Hd).
    rewrite Hp' in Hp''. injection Hp'' as <-.
    exists j, p'. split; [exact Hp'|]. split; [exact Hd|].
    split; [apply elem_of_counted_inds; exact Hj|].
    split; [eapply elem_of_sublist; eassumption|exact Hc].
  - intros Htp. rewrite Hnew, (Hoff Htp). set_solver.
Qed.
End test_prop_more.

(** ** TestProp: a whole simulation *)

Lemma sum_upto_0 (l : list Z) : sum_upto l 0 = default 0%Z (l !! 0).
Proof. destruct l as [|x l]; unfold sum_upto; simpl; [reflexivity|]. rewrite ?take_0. simpl. lia. Qed.

Lemma sum_upto_cons (x : Z) (l : list Z) (t : nat) :
  sum_upto (x :: l) (S t) = (x + sum_upto l t)%Z.
Proof. reflexivity. Qed.

Lemma sum_upto_S (l : list Z) (t : nat) :
  sum_upto l (S t) = (sum_upto l t + default 0 (l !! S t))%Z.
Proof.
  revert t. induction l as [|x l IH]; intros t; [reflexivity|].
  rewrite sum_upto_cons. destruct t as [|t].
  - rewrite sum_upto_0. unfold sum_upto. simpl. rewrite ?take_0. destruct l; simpl; lia.
  - rewrite IH, sum_upto_cons. simpl. lia.
Qed.

Lemma sum_upto_le (l1 l2 : list Z) :
  (∀ t, (default 0 (l1 !! t) ≤ default 0 (l2 !! t))%Z) →
  ∀ t, (sum_upto l1 t ≤ sum_upto l2 t)%Z.
Proof.
  intros Hle t. induction t as [|t IH].
  - rewrite !sum_upto_0. apply Hle.
  - rewrite !sum_upto_S. specialize (Hle (S t)). lia.
Qed.

Lemma value_at_lookup (res : gmap string Result) (key : string) (r : Result) (t : nat) :
  res !! key = Some r → value_at res key t = default 0%Z (values r !! t).
Proof. intros Hr. unfold value_at. rewrite Hr. reflexivity. Qed.

Section test_prop_run.
Context `{World}.
Implicit Types (self : TestProp.t).

(** The state of an instance in a simulation of [npts] days: its four series
    have [npts] slots and no day has more diagnoses than tests. *)
Lemma run_TestProp_inv npts (days : list (nat * RNG)) :
  Forall (fun d => d.1 < npts) days →
  ∀ self (sim : Sim),
    (∀ key, key ∈ ["n_tested"; "n_diagnoses"; "cum_tested"; "cum_diagnoses"] →
            series npts (TestProp.results self) key) →
    diagnoses_within_tests (TestProp.results self) →
    ∃ self' sim' logs,
      run_TestProp self sim days = Ok (self', sim', logs)
      ∧ (∀ key, key ∈ ["n_tested"; "n_diagnoses"; "cum_tested"; "cum_diagnoses"] →
                series npts (TestProp.results self') key)
      ∧ diagnoses_within_tests (TestProp.results self')
      ∧ TestProp.results self' !! "cum_tested" = TestProp.results self !! "cum_tested"
      ∧ TestProp.results self' !! "cum_diagnoses" = TestProp.results self !! "cum_diagnoses"
      ∧ length (people sim') = length (people sim)
      ∧ sim_results sim' = sim_results sim
      ∧ length logs = length days.
Proof.
  induction 1 as [|[t rng] days Ht _ IH]; intros self sim Hser Hinv.
  - exists self, sim, []. simpl.
    split; [reflexivity|]. split; [exact Hser|]. split; [exact Hinv|]. auto.
  - simpl in Ht.
    destruct (TestProp_apply_spec self sim t npts rng Ht
                (Hser "n_tested" ltac:(set_solver)) (Hser "n_diagnoses" ltac:(set_solver)))
      as (self1 & sim1 & rng1 & log & Happ & _).
    pose proof (TestProp_apply_inv _ _ _ _ _ _ _ _ Happ)
      as ((Hlen & (Hnt & Hnd & Hother & Hkeep) & _ & Hct & _) & _ & Hres & _).
    assert (Hser1 : ∀ key, key ∈ ["n_tested"; "n_diagnoses"; "cum_tested"; "cum_diagnoses"] →
                           series npts (TestProp.results self1) key)
      by (intros key Hkey; apply Hkeep, Hser, Hkey).
    assert (Hinv1 : diagnoses_within_tests (TestProp.results self1)).
    { intros t'. rewrite Hnt, Hnd. specialize (Hinv t').
      apply sublist_length in Hct. destruct (decide (t' = t)); lia. }
    destruct (IH self1 sim1 Hser1 Hinv1)
      as (self' & sim' & logs & Hrun & Hser' & Hinv' & Hc1 & Hc2 & Hlen' & Hres' & Hlogs).
    exists self', sim', (log :: logs). simpl. rewrite Happ. simpl. rewrite Hrun. simpl.
    split; [reflexivity|]. split; [exact Hser'|]. split; [exact Hinv'|].
    split; [rewrite Hc1; apply Hother; done|].
    split; [rewrite Hc2; apply Hother; done|].
    split; [lia|]. split; [congruence|]. rewrite Hlogs. reflexivity.
Qed.

Lemma value_at_new_Result (res : gmap string Result) (key label : string) (npts t : nat) :
  res !! key = Some (new_Result label npts) → value_at res key t = 0%Z.
Proof.
  intros Hr. rewrite (value_at_lookup _ _ _ _ Hr). simpl.
  destruct (replicate npts 0%Z !! t) as [v|] eqn:Hv; simpl; [|reflexivity].
  apply lookup_replicate in Hv as [-> _]. reflexivity.
Qed.

Lemma TestProp_init_within (npts : nat) (sp ap tp sens : Q) :
  diagnoses_within_tests (TestProp.results (TestProp.init npts sp ap tp sens)).
Proof.
  intros t.
  rewrite (value_at_new_Result _ "n_diagnoses" "Number diagnosed" npts t) by reflexivity.
  rewrite (value_at_new_Result _ "n_tested" "Number tested" npts t) by reflexivity.
  lia.
Qed.

Lemma TestProp_finalize_values npts self (sim : Sim) :
  (∀ key, key ∈ ["n_tested"; "n_diagnoses"; "cum_tested"; "cum_diagnoses"] →
          series npts (TestProp.results self) key) →
  ∃ self' sim' nt nd,
    TestProp.finalize self sim = Ok (self', sim')
    ∧ TestProp.results self !! "n_tested" = Some nt
    ∧ TestProp.results self !! "n_diagnoses" = Some nd
    ∧ (∀ t, t < npts →
         value_at (TestProp.results self') "cum_tested" t = sum_upto (values nt) t
         ∧ value_at (TestProp.results self') "cum_diagnoses" t = sum_upto (values nd) t)
    ∧ sim' = update_results sim (TestProp.results self').
Proof.
  intros Hser.
  destruct (set_cumulative_ok npts "cum_tested" "n_tested" _ ltac:(done)
              (Hser "n_tested" ltac:(set_solver)) (Hser "cum_tested" ltac:(set_solver)))
    as (nt & ct & Hlnt & Hlct & Hset1).
  destruct (Hser "n_tested" ltac:(set_solver)) as (nt' & Hnt' & Hlent).
  rewrite Hlnt in Hnt'. injection Hnt' as <-.
  destruct (Hser "n_diagnoses" ltac:(set_solver)) as (nd & Hlnd & Hlend).
  destruct (Hser "cum_diagnoses" ltac:(set_solver)) as (cd & Hlcd & _).
  exists (TestProp.set_results self
            (<["cum_diagnoses" := {| name := name cd; values := cumsum (values nd) |}]>
             (<["cum_tested" := {| name := name ct; values := cumsum (values nt) |}]>
                (TestProp.results self)))),
         (update_results sim
            (<["cum_diagnoses" := {| name := name cd; values := cumsum (values nd) |}]>
             (<["cum_tested" := {| name := name ct; values := cumsum (values nt) |}]>
                (TestProp.results self)))),
         nt, nd.
  unfold TestProp.finalize. rewrite Hset1. simpl.
  unfold set_cumulative. rewrite !lookup_insert_ne by done. rewrite Hlnd, Hlcd. simpl.
  split; [reflexivity|]. split; [exact Hlnt|]. split; [reflexivity|].
  split; [|reflexivity].
  intros t Ht. unfold value_at.
  rewrite lookup_insert_ne by done. rewrite !lookup_insert_eq. simpl.
  rewrite !cumsum_lookup by lia. auto.
Qed.

(** X10.  A simulation with a [TestProp] instance does not raise: for a
    freshly constructed instance, any population and any random sources,
    calling [apply] on days below [npts] in any order and number, and then
    [finalize], returns; the population keeps its size and the four series
    keep their [npts] slots. *)
Theorem TestProp_simulation_never_raises
    (npts : nat) (sp ap tp sens : Q) (sim : Sim) (days : list (nat * RNG)) :
  Forall (fun d => d.1 < npts) days →
  ∃ self' sim' logs self'' sim'',
    run_TestProp (TestProp.init npts sp ap tp sens) sim days = Ok (self', sim', logs)
    ∧ TestProp.finalize self' sim' = Ok (self'', sim'')
    ∧ length logs = length days
    ∧ length (people sim'') = length (people sim)
    ∧ (∀ key, key ∈ ["n_tested"; "n_diagnoses"; "cum_tested"; "cum_diagnoses"] →
              series npts (TestProp.results self') key).
Proof.
  intros Hdays.
  destruct (run_TestProp_inv npts days Hdays (TestProp.init npts sp ap tp sens) sim
              (TestProp_init_series npts sp ap tp sens) (TestProp_init_within npts sp ap tp sens))
    as (self' & sim' & logs & Hrun & Hser & _ & _ & _ & Hlen & _ & Hlogs).
  destruct (TestProp_finalize_values npts self' sim' Hser)
    as (self'' & sim'' & nt & nd & Hfin & _ & _ & _ & ->).
  exists self', sim', logs, self'', (update_results sim' (TestProp.results self'')).
  split; [exact Hrun|]. split; [exact Hfin|]. split; [exact Hlogs|].
  split; [exact Hlen|exact Hser].
Qed.

(** X11.  While the simulation runs, on every day the number of diagnoses
    recorded lies between 0 and the number of tests recorded; the cumulative
    series are still as constructed, all zero, and the results of the
    simulation are untouched: they receive the series only in [finalize]. *)
Theorem TestProp_diagnoses_within_tests
    (npts : nat) (sp ap tp sens : Q) (sim : Sim) (days : list (nat * RNG))
    self' (sim' : Sim) logs :
  Forall (fun d => d.1 < npts) days →
  run_TestProp (TestProp.init npts sp ap tp sens) sim days = Ok (self', sim', logs) →
  (∀ t, (0 ≤ value_at (TestProp.results self') "n_diagnoses" t
           ≤ value_at (TestProp.results self') "n_tested" t)%Z)
  ∧ TestProp.results self' !! "cum_tested"
    = Some (new_Result "Cumulative number tested" npts)
  ∧ TestProp.results self' !! "cum_diagnoses"
    = Some (new_Result "Cumulative number diagnosed" npts)
  ∧ sim_results sim' = sim_results sim.
Proof.
  intros Hdays Hrun.
  destruct (run_TestProp_inv npts days Hdays (TestProp.init npts sp ap tp sens) sim
              (TestProp_init_series npts sp ap tp sens) (TestProp_init_within npts sp ap tp sens))
    as (s & m & l & Hrun' & _ & Hinv & Hc1 & Hc2 & _ & Hres & _).
  rewrite Hrun in Hrun'. injection Hrun' as <- <- <-.
  split; [exact Hinv|]. split; [rewrite Hc1; reflexivity|].
  split; [rewrite Hc2; reflexivity|exact Hres].
Qed.

(** X12.  After the simulation and [finalize], the cumulative series are
    ordered: on every day the cumulated diagnoses lie between 0 and the
    cumulated tests, and neither series decreases from one day to the next. *)
Theorem TestProp_cumulative_order
    (npts : nat) (sp ap tp sens : Q) (sim : Sim) (days : list (nat * RNG))
    self' (sim' : Sim) logs self'' (sim'' : Sim) :
  Forall (fun d => d.1 < npts) days →
  run_TestProp (TestProp.init npts sp ap tp sens) sim days = Ok (self', sim', logs) →
  TestProp.finalize self' sim' = Ok (self'', sim'') →
  (∀ t, t < npts →
     (0 ≤ value_at (TestProp.results self'') "cum_diagnoses" t
        ≤ value_at (TestProp.results self'') "cum_tested" t)%Z)
  ∧ (∀ t, S t < npts →
       (value_at (TestProp.results self'') "cum_diagnoses" t
        ≤ value_at (TestProp.results self'') "cum_diagnoses" (S t))%Z
       ∧ (value_at (TestProp.results self'') "cum_tested" t
          ≤ value_at (TestProp.results self'') "cum_tested" (S t))%Z).
Proof.
  intros Hdays Hrun Hfin.
  destruct (run_TestProp_inv npts days Hdays (TestProp.init npts sp ap tp sens) sim
              (TestProp_init_series npts sp ap tp sens) (TestProp_init_within npts sp ap tp sens))
    as (s & m & l & Hrun' & Hser & Hinv & _).
  rewrite Hrun in Hrun'. injection Hrun' as <- <- <-.
  destruct (TestProp_finalize_values npts self' sim' Hser)
    as (s2 & m2 & nt & nd & Hfin' & Hnt & Hnd & Hcum & _).
  rewrite Hfin in Hfin'. injection Hfin' as <- <-.
  assert (Hpoint : ∀ t, (0 ≤ default 0 (values nd !! t) ≤ default 0 (values nt !! t))%Z).
  { intros t. specialize (Hinv t).
    rewrite (value_at_lookup _ _ _ _ Hnt), (value_at_lookup _ _ _ _ Hnd) in Hinv. exact Hinv. }
  assert (Hpos : ∀ t, (0 ≤ sum_upto (values nd) t)%Z).
  { intros t. induction t as [|t IH]; [rewrite sum_upto_0|rewrite sum_upto_S];
      [apply Hpoint|specialize (Hpoint (S t)); lia]. }
  split.
  - intros t Ht. destruct (Hcum t Ht) as [-> ->].
    split; [apply Hpos|]. apply sum_upto_le. intros t'. apply Hpoint.
  - intros t Ht. destruct (Hcum t ltac:(lia)) as [-> ->].
    destruct (Hcum (S t) Ht) as [-> ->].
    rewrite !sum_upto_S. pose proof (Hpoint (S t)). lia.
Qed.
End test_prop_run.

Lemma Toy_three_days_in_range : Forall (fun d : nat * list Q => d.1 < 3) Toy.three_days.
Proof. repeat constructor. Defined.

Lemma TestProp_simulation_never_raises_witness :
  ∃ self' sim' logs self'' sim'',
    run_TestProp Toy.policy Toy.sick_and_carrier Toy.three_days = Ok (self', sim', logs)
    ∧ TestProp.finalize self' sim' = Ok (self'', sim'')
    ∧ length logs = 3.
Proof.
  destruct (TestProp_simulation_never_raises 3 (9 # 10) 0 1 1 Toy.sick_and_carrier
              Toy.three_days Toy_three_days_in_range)
    as (self' & sim' & logs & self'' & sim'' & Hrun & Hfin & Hlogs & _).
  exists self', sim', logs, self'', sim''. auto.
Defined.

Lemma TestProp_diagnoses_within_tests_witness :
  ∃ self' sim' logs,
    run_TestProp Toy.policy Toy.sick_and_healthy Toy.three_days = Ok (self', sim', logs)
    ∧ (value_at (TestProp.results self') "n_diagnoses" 1
       ≤ value_at (TestProp.results self') "n_tested" 1)%Z.
Proof.
  assert (Hrun : run_TestProp Toy.policy Toy.sick_and_healthy Toy.three_days = Ok (_, _, _))
    by (vm_compute; reflexivity).
  destruct (TestProp_diagnoses_within_tests 3 (9 # 10) 0 1 1 Toy.sick_and_healthy
              Toy.three_days _ _ _ Toy_three_days_in_range Hrun) as (Hinv & _).
  eexists _, _, _. split; [exact Hrun|]. apply Hinv.
Defined.

Lemma TestProp_cumulative_order_witness :
  ∃ self' sim' logs self'' sim'',
    run_TestProp Toy.policy Toy.sick_and_carrier Toy.three_days = Ok (self', sim', logs)
    ∧ TestProp.finalize self' sim' = Ok (self'', sim'')
    ∧ (value_at (TestProp.results self'') "cum_diagnoses" 2
       ≤ value_at (TestProp.results self'') "cum_tested" 2)%Z.
Proof.
  assert (Hrun : run_TestProp Toy.policy Toy.sick_and_carrier Toy.three_days = Ok (_, _, _))
    by (vm_compute; reflexivity).
  match type of Hrun with _ = Ok (?s, ?m, _) =>
    assert (Hfin : TestProp.finalize s m = Ok (_, _)) by (vm_compute; reflexivity)
  end.
  destruct (TestProp_cumulative_order 3 (9 # 10) 0 1 1 Toy.sick_and_carrier
              Toy.three_days _ _ _ _ _ Toy_three_days_in_range Hrun Hfin) as (Hle & _).
  eexists _, _, _, _, _. split; [exact Hrun|]. split; [exact Hfin|].
  apply Hle. lia.
Defined.

Lemma TestProp_apply_frame_witness :
  ∃ self' sim' rng' log,
    TestProp.apply Toy.policy Toy.sick_and_healthy 0 [] = Ok (self', sim', rng', log)
    ∧ people sim' !! 1 = Some Toy.healthy
    ∧ TestProp.results self' !! "cum_tested" = TestProp.results Toy.policy !! "cum_tested".
Proof.
  assert (Happ : TestProp.apply Toy.policy Toy.sick_and_healthy 0 [] = Ok (_, _, _, _))
    by (vm_compute; reflexivity).
  destruct (TestProp_apply_frame _ _ _ _ _ _ _ _ Happ) as (_ & _ & _ & Hsame & _ & Hkeys & _).
  specialize (Hsame 1 ltac:(vm_compute; set_solver)).
  eexists _, _, _, _. split; [exact Happ|]. split.
  - exact Hsame.
  - apply Hkeys; done.
Defined.

Lemma TestProp_apply_counts_witness :
  ∃ self' sim' rng' log,
    TestProp.apply Toy.policy Toy.sick_and_carrier 0 [] = Ok (self', sim', rng', log)
    ∧ length (counted_inds log) ≤ length (tested_inds log) ≤ 2.
Proof.
  assert (Happ : TestProp.apply Toy.policy Toy.sick_and_carrier 0 [] = Ok (_, _, _, _))
    by (vm_compute; reflexivity).
  destruct (TestProp_apply_counts _ _ _ _ _ _ _ _ Happ) as (_ & _ & _ & Hle & _).
  eexists _, _, _, _. split; [exact Happ|exact Hle].
Defined.

Lemma TestProp_scheduled_are_contacts_witness :
  ∃ self' sim' rng' log,
    TestProp.apply Toy.policy Toy.sick_and_healthy 0 [] = Ok (self', sim', rng', log)
    ∧ ∃ j p', people sim' !! j = Some p' ∧ Counted j ∈ log ∧ 1 ∈ contact_inds p'.
Proof.
  assert (Happ : TestProp.apply Toy.policy Toy.sick_and_healthy 0 [] = Ok (_, _, _, _))
    by (vm_compute; reflexivity).
  destruct (TestProp_scheduled_are_contacts _ _ _ _ _ _ _ _ Happ) as (Hsched & _).
  destruct (Hsched 1) as (j & p' & Hp' & _ & Hc & _ & Hin); [vm_compute; set_solver|].
  eexists _, _, _, _. split; [exact Happ|]. exists j, p'. auto.
Defined.

Lemma finalize_again_witness :
  ∃ self1 sim1,
    TestProp.finalize Toy.policy Toy.sick_and_healthy = Ok (self1, sim1)
    ∧ TestProp.finalize self1 sim1 = Ok (self1, sim1).
Proof.
  assert (Hfin : TestProp.finalize Toy.policy Toy.sick_and_healthy = Ok (_, _))
    by (vm_compute; reflexivity).
  eexists _, _. split; [exact Hfin|].
  apply (proj2 finalize_again _ _ _ _ Hfin).
Defined.

Lemma finalize_merge_witness :
  ∃ self' sim',
    TestNum.finalize (TestNum.init 3 [Tests 2] 100 1 1)
      (mkSim Toy.world 1 [] {["r_eff" := mkResult "Effective reproductive number" [2; 1; 1]%Z]})
    = Ok (self', sim')
    ∧ sim_results sim' !! "r_eff"
      = Some (mkResult "Effective reproductive number" [2; 1; 1]%Z).
Proof.
  assert (Hfin : TestNum.finalize (TestNum.init 3 [Tests 2] 100 1 1)
                   (mkSim Toy.world 1 []
                      {["r_eff" := mkResult "Effective reproductive number" [2; 1; 1]%Z]})
                 = Ok (_, _)) by (vm_compute; reflexivity).
  destruct (proj1 finalize_merge _ _ _ _ Hfin) as (_ & _ & _ & Hkeep).
  specialize (Hkeep "r_eff" ltac:(vm_compute; reflexivity)).
  eexists _, _. split; [exact Hfin|]. exact Hkeep.
Defined.

Lemma finalize_last_policy_wins_witness :
  ∃ tn' sim1 tp' sim2,
    TestNum.finalize
      (TestNum.mk (<["cum_diagnoses" := new_Result "Cumulative number diagnosed" 3]>
                   (<["n_diagnoses" := mkResult "Number diagnosed" [1; 0; 2]%Z]> ∅))
                  [Tests 2; Tests 2; Tests 2] 100 1 1)
      Toy.sick_and_healthy = Ok (tn', sim1)
    ∧ TestProp.finalize Toy.policy sim1 = Ok (tp', sim2)
    ∧ sim_results sim1 !! "n_diagnoses" = Some (mkResult "Number diagnosed" [1; 0; 2]%Z)
    ∧ sim_results sim2 !! "n_diagnoses" = Some (new_Result "Number diagnosed" 3).
Proof.
  assert (Hn : TestNum.finalize
      (TestNum.mk (<["cum_diagnoses" := new_Result "Cumulative number diagnosed" 3]>
                   (<["n_diagnoses" := mkResult "Number diagnosed" [1; 0; 2]%Z]> ∅))
                  [Tests 2; Tests 2; Tests 2] 100 1 1)
      Toy.sick_and_healthy = Ok (_, _)) by (vm_compute; reflexivity).
  match type of Hn with _ = Ok (_, ?m) =>
    assert (Hp : TestProp.finalize Toy.policy m = Ok (_, _)) by (vm_compute; reflexivity)
  end.
  destruct (finalize_last_policy_wins _ _ _ _ _ _ _ Hn Hp) as (H1 & H2 & _).
  eexists _, _, _, _. split; [exact Hn|]. split; [exact Hp|].
  split; [exact H1|exact H2].
Defined.

(** ** TestProp: a day beyond the series *)

Lemma incr_out_of_range (npts : nat) (key : string) (t : nat) (res : gmap string Result) :
  series npts res key → npts ≤ t → incr key t res = Err IndexError.
Proof.
  intros (r & Hr & Hlen) Ht. unfold incr. rewrite Hr.
  rewrite (lookup_ge_None_2 (values r) t) by lia. reflexivity.
Qed.

Section test_prop_bounds.
Context `{World}.
Implicit Types (self : TestProp.t) (st : TestProp.loop_state) (p : Person).

Lemma loop_out_of_range self t npts (ps : list Person) :
  npts ≤ t →
  ∀ k st j p,
    series npts (TestProp.l_results st) "n_tested" →
    ps !! j = Some p →
    k + j ∈ TestProp.scheduled_tests self →
    TestProp.loop self t k ps st = Err IndexError.
Proof.
  intros Ht. induction ps as [|p0 ps IH]; intros k st j p Hser Hp Hj; [discriminate|].
  simpl. unfold TestProp.visit.
  destruct (TestProp.selected self k p0 (TestProp.l_rng st)) as [sel rng1] eqn:Hsel.
  destruct sel.
  - rewrite (incr_out_of_range npts _ _ _ Hser Ht). reflexivity.
  - simpl. destruct j as [|j].
    + rewrite Nat.add_0_r in Hj. rewrite (selected_scheduled self k p0 _ Hj) in Hsel.
      discriminate.
    + simpl in Hp.
      rewrite (IH (S k) (TestProp.mkLoop (TestProp.l_results st)
                           (TestProp.l_new_scheduled_tests st) rng1 (TestProp.l_log st))
                  j p Hser Hp); [reflexivity|].
      replace (S k + j) with (k + S j) by lia. exact Hj.
Qed.

(** X13.  On a day that is not below [npts], [TestProp.apply] raises
    [IndexError] as soon as a person has to be tested: it does so whenever the
    index of a person of the population is among the scheduled tests. *)
Theorem TestProp_apply_day_out_of_range
    npts self (sim : Sim) t (rng : RNG) i p :
  series npts (TestProp.results self) "n_tested" →
  npts ≤ t →
  people sim !! i = Some p →
  i ∈ TestProp.scheduled_tests self →
  TestProp.apply self sim t rng = Err IndexError.
Proof.
  intros Hser Ht Hp Hi. unfold TestProp.apply.
  rewrite (loop_out_of_range self t npts (people sim) Ht 0
             (TestProp.mkLoop (TestProp.results self) ∅ rng []) i p Hser Hp Hi).
  reflexivity.
Qed.
End test_prop_bounds.

Lemma TestProp_apply_day_out_of_range_witness :
  TestProp.apply (TestProp.set_scheduled_tests Toy.policy {[1]}) Toy.sick_and_healthy 3
    [(95 # 100)%Q] = Err IndexError.
Proof.
  apply (TestProp_apply_day_out_of_range 3 (TestProp.set_scheduled_tests Toy.policy {[1]})
           Toy.sick_and_healthy 3 [(95 # 100)%Q] 1 Toy.healthy).
  - apply (TestProp_init_series 3 (9 # 10) 0 1 1 "n_tested"). set_solver.
  - lia.
  - reflexivity.
  - set_solver.
Defined.

(** ** TestNum: days without tests, and what a call leaves alone *)

Section test_num_more.
Context `{World}.
Implicit Types (self : TestNum.t) (p : Person).

(** X14.  On a day beyond the end of [daily_tests], or whose budget is zero
    or not finite, [TestNum.apply] does nothing and does not raise: it returns
    the instance, the simulation and the random source as they were and tests
    nobody, whatever the weights of the people are (the division by their sum
    is not reached). *)
Theorem TestNum_apply_without_tests self (sim : Sim) t (rng : RNG) :
  TestNum.daily_tests self !! t = None
  ∨ TestNum.daily_tests self !! t = Some (Tests 0)
  ∨ TestNum.daily_tests self !! t = Some NonFinite →
  TestNum.apply self sim t rng = Ok (self, sim, rng, []).
Proof.
  unfold TestNum.apply. intros [Hd|[Hd|Hd]]; rewrite Hd; reflexivity.
Qed.

Lemma test_loop_inv self t (inds : list nat) :
  ∀ res (sim : Sim) (rng : RNG) log res' (sim' : Sim) (rng' : RNG) log',
    TestNum.test_loop self t inds res sim rng log = Ok (res', sim', rng', log') →
    ∃ ext,
      log' = log ++ ext
      ∧ tested_inds ext = inds
      ∧ counted_inds ext `sublist_of` inds
      ∧ beta sim' = beta sim
      ∧ sim_results sim' = sim_results sim
      ∧ length (people sim') = length (people sim)
      ∧ (∀ j, j ∉ inds → people sim' !! j = people sim !! j)
      ∧ (∀ t', value_at res' "n_diagnoses" t'
               = (value_at res "n_diagnoses" t'
                  + if decide (t' = t) then Z.of_nat (length (counted_inds ext)) else 0)%Z)
      ∧ (∀ key, key ≠ "n_diagnoses" → res' !! key = res !! key).
Proof.
  induction inds as [|i inds IH]; intros res sim rng log res' sim' rng' log' Hloop.
  - simpl in Hloop. injection Hloop as <- <- <- <-. exists []. rewrite app_nil_r. simpl.
    repeat split; auto; try constructor.
    intros t'. destruct (decide (t' = t)); lia.
  - simpl in Hloop. unfold get_person in Hloop.
    destruct (people sim !! i) as [p|] eqn:Hp; simpl in Hloop; [|discriminate].
    destruct (test p t (TestNum.sensitivity self) rng) as [p' rng1].
    assert (Hframe : ∀ sim2 : Sim,
      length (people sim2) = length (people (set_people sim (<[i:=p']> (people sim)))) →
      (∀ j, j ∉ inds →
         people sim2 !! j = people (set_people sim (<[i:=p']> (people sim))) !! j) →
      length (people sim2) = length (people sim)
      ∧ (∀ j, j ∉ i :: inds → people sim2 !! j = people sim !! j)).
    { intros sim2 Hlen Hsame. simpl in Hlen, Hsame. rewrite length_insert in Hlen.
      split; [exact Hlen|]. intros j Hj.
      rewrite Hsame by (intros Hin; apply Hj, list_elem_of_further, Hin).
      apply list_lookup_insert_ne. intros ->. apply Hj, list_elem_of_here. }
    destruct (diagnosed p').
    + destruct (incr "n_diagnoses" t res) as [res1|e] eqn:Hincr; simpl in Hloop; [|discriminate].
      apply IH in Hloop as (ext & -> & Hte & Hco & Hb & Hr & Hlen & Hsame & Hv & Ho).
      apply incr_value_at in Hincr as (Hv1 & Ho1 & _).
      destruct (Hframe sim' Hlen Hsame) as (Hlen' & Hsame').
      exists (Tested i t (TestNum.sensitivity self) :: Counted i :: ext).
      split; [rewrite <- !app_assoc; reflexivity|]. simpl.
      fold (tested_inds ext) (counted_inds ext).
      split; [rewrite Hte; reflexivity|]. split; [apply sublist_skip; exact Hco|].
      split; [exact Hb|]. split; [exact Hr|]. split; [exact Hlen'|].
      split; [exact Hsame'|]. split.
      * intros t'. rewrite Hv, Hv1. destruct (decide (t' = t)); lia.
      * intros key Hkey. rewrite Ho, Ho1 by exact Hkey. reflexivity.
    + apply IH in Hloop as (ext & -> & Hte & Hco & Hb & Hr & Hlen & Hsame & Hv & Ho).
      destruct (Hframe sim' Hlen Hsame) as (Hlen' & Hsame').
      exists (Tested i t (TestNum.sensitivity self) :: ext).
      split; [rewrite <- !app_assoc; reflexivity|]. simpl.
      fold (tested_inds ext) (counted_inds ext).
      split; [rewrite Hte; reflexivity|]. split; [apply sublist_cons; exact Hco|].
      split; [exact Hb|]. split; [exact Hr|]. split; [exact Hlen'|].
      split; [exact Hsame'|]. split; [exact Hv|exact Ho].
Qed.

(** X15.  Whenever [TestNum.apply] returns, it has left beta, the results of
    the simulation, the number of people, the configuration of the instance
    and every person it did not test as they were; the people counted as
    diagnosed are among those tested; [n_diagnoses[t]] has grown by their
    number, which is at most the number of people tested, and nothing else in
    the results of the instance has changed. *)
Theorem TestNum_apply_frame
    self (sim : Sim) t (rng : RNG) self' (sim' : Sim) (rng' : RNG) log :
  TestNum.apply self sim t rng = Ok (self', sim', rng', log) →
  beta sim' = beta sim
  ∧ sim_results sim' = sim_results sim
  ∧ length (people sim') = length (people sim)
  ∧ (∀ j, j ∉ tested_inds log → people sim' !! j = people sim !! j)
  ∧ (TestNum.daily_tests self' = TestNum.daily_tests self
     ∧ TestNum.sympt_test self' = TestNum.sympt_test self
     ∧ TestNum.trace_test self' = TestNum.trace_test self
     ∧ TestNum.sensitivity self' = TestNum.sensitivity self)
  ∧ counted_inds log `sublist_of` tested_inds log
  ∧ (∀ t', value_at (TestNum.results self') "n_diagnoses" t'
           = (value_at (TestNum.results self) "n_diagnoses" t'
              + if decide (t' = t) then Z.of_nat (length (counted_inds log)) else 0)%Z)
  ∧ (∀ key, key ≠ "n_diagnoses" →
            TestNum.results self' !! key = TestNum.results self !! key).
Proof.
  unfold TestNum.apply. intros Happ.
  assert (Hnoop : (self', sim', rng', log) = (self, sim, rng, []) →
    beta sim' = beta sim ∧ sim_results sim' = sim_results sim
    ∧ length (people sim') = length (people sim)
    ∧ (∀ j, j ∉ tested_inds log → people sim' !! j = people sim !! j)
    ∧ (TestNum.daily_tests self' = TestNum.daily_tests self
       ∧ TestNum.sympt_test self' = TestNum.sympt_test self
       ∧ TestNum.trace_test self' = TestNum.trace_test self
       ∧ TestNum.sensitivity self' = TestNum.sensitivity self)
    ∧ counted_inds log `sublist_of` tested_inds log
    ∧ (∀ t', value_at (TestNum.results self') "n_diagnoses" t'
             = (value_at (TestNum.results self) "n_diagnoses" t'
                + if decide (t' = t) then Z.of_nat (length (counted_inds log)) else 0)%Z)
    ∧ (∀ key, key ≠ "n_diagnoses" →
              TestNum.results self' !! key = TestNum.results self !! key)).
  { intros Heq. injection Heq as -> -> -> ->. simpl.
    repeat split; auto; try constructor.
    intros t'. destruct (decide (t' = t)); lia. }
  destruct (TestNum.daily_tests self !! t) as [n_tests|];
    [|apply Hnoop; congruence].
  destruct (negb (budget_truthy n_tests && isfinite n_tests));
    [apply Hnoop; congruence|].
  destruct n_tests as [n|]; [|apply Hnoop; congruence].
  simpl in Happ.
  destruct (choose_people_weighted (TestNum.normalize (TestNum.test_probs self sim)) n rng)
    as [inds rng1].
  destruct (TestNum.test_loop self t inds (TestNum.results self) sim rng1 [])
    as [[[[res1 sim1] rng2] log1]|e] eqn:Hloop; simpl in Happ; [|discriminate].
  injection Happ as <- <- <- <-.
  apply test_loop_inv in Hloop as (ext & -> & Hte & Hco & Hb & Hr & Hlen & Hsame & Hv & Ho).
  simpl. rewrite Hte.
  split; [exact Hb|]. split; [exact Hr|]. split; [exact Hlen|]. split; [exact Hsame|].
  split; [auto|]. split; [exact Hco|]. split; [exact Hv|exact Ho].
Qed.
End test_num_more.

Lemma TestNum_apply_without_tests_witness :
  TestNum.apply (TestNum.init 2 [Tests 0; NonFinite] 100 1 1)
    (Toy.sim_of 1 [Toy.known []; Toy.known []]) 5 []
  = Ok (TestNum.init 2 [Tests 0; NonFinite] 100 1 1,
        Toy.sim_of 1 [Toy.known []; Toy.known []], [], []).
Proof.
  apply (TestNum_apply_without_tests (TestNum.init 2 [Tests 0; NonFinite] 100 1 1)
           (Toy.sim_of 1 [Toy.known []; Toy.known []]) 5 []).
  left. reflexivity.
Defined.

Lemma TestNum_apply_frame_witness :
  ∃ self' sim' rng' log,
    TestNum.apply (TestNum.init 1 [Tests 2] 100 1 1)
      (Toy.sim_of 1 [Toy.known []; Toy.healthy; Toy.sick []]) 0 [(1 # 2)%Q; (99 # 100)%Q]
    = Ok (self', sim', rng', log)
    ∧ people sim' !! 0 = Some (Toy.known [])
    ∧ counted_inds log `sublist_of` tested_inds log.
Proof.
  assert (Happ : TestNum.apply (TestNum.init 1 [Tests 2] 100 1 1)
            (Toy.sim_of 1 [Toy.known []; Toy.healthy; Toy.sick []]) 0
            [(1 # 2)%Q; (99 # 100)%Q] = Ok (_, _, _, _)) by (vm_compute; reflexivity).
  destruct (TestNum_apply_frame _ _ _ _ _ _ _ _ Happ) as (_ & _ & _ & Hsame & _ & Hco & _).
  specialize (Hsame 0 ltac:(vm_compute; set_solver)).
  eexists _, _, _, _. split; [exact Happ|]. split; [exact Hsame|exact Hco].
Defined.

(** ** Serialization: the keys of the mapping *)

(** X16.  The mapping returned by [to_json] has exactly the attributes of
    the instance and [InterventionType] as keys, in every state of the
    instance: beside the configuration it always carries the results and the
    state kept between calls (the baseline of [ChangeBeta], the scheduled
    tests of [TestProp]). *)
Theorem to_json_keys :
  (∀ self : ChangeBeta.t,
     dom (to_json self)
     = ({["results"; "days"; "changes"; "orig_beta"; "InterventionType"]} : gset string))
  ∧ (∀ self : TestNum.t,
     dom (to_json self)
     = ({["results"; "daily_tests"; "sympt_test"; "trace_test"; "sensitivity";
          "InterventionType"]} : gset string))
  ∧ (∀ self : TestProp.t,
     dom (to_json self)
     = ({["results"; "symptomatic_prob"; "asymptomatic_prob"; "trace_prob";
          "test_sensitivity"; "scheduled_tests"; "InterventionType"]} : gset string)).
Proof.
  split; [|split]; intros self; unfold to_json; simpl;
    rewrite !dom_insert_L, dom_empty_L; set_solver.
Qed.
